(** * Pantryfy: expiration utilities and the pantry / shopping-list store

    A shallow embedding of [utils/expiration.ts], [types/pantry.ts] and
    [store/usePantryStore.ts], and the properties of the expiration
    classifier and of the store actions.

    Conventions of the embedding.
    - A JavaScript time value (what [Date.prototype.getTime] returns) is an
      integral double of magnitude at most 8.64e15, or NaN.  It is modelled
      as [option Z], [None] being NaN; on such values subtraction is exact.
    - [quantity] is a JavaScript number coming from [parseFloat]; it is a
      binary64 float here as well.
    - The services of the JavaScript host that the code calls (date parsing
      and formatting, the local time zone, [String.prototype.toLowerCase],
      [Math.random]) are the fields of the class [Host]; [RefHost.host] is
      an executable instance used to evaluate the code on concrete inputs.
    - [Array.prototype.sort] is the engine's (class [Engine]).  Theorems
      about sorting hold for every engine that [conforms] to the language;
      [insertionEngine] is an executable one.
    - The local time zone is a fixed offset from UTC.  Daylight-saving
      changes are outside the model; [Math_round_div_near] shows that the
      rounding in [daysBetween] absorbs the hour they add or remove.
    - The clock does not advance while one synchronous action runs: an
      action that reads the clock takes the current time [now] as argument.
    - The zustand state is a record passed explicitly from action to
      action; [set] with a partial state keeps the fields it does not name. *)

From Stdlib Require Import ZArith String Ascii List Floats Sorted Permutation Lia.
From stdpp Require Import base option list strings gmap pretty.

Open Scope Z_scope.

(** ** The JavaScript host *)

Class Host := {
  (** [new Date(s).getTime()]; [None] is the time value of an Invalid Date *)
  Date_parse : string -> option Z;
  (** offset of local time from UTC, in minutes, east positive *)
  tzOffset : Z;
  (** [String.prototype.toLowerCase] *)
  toLowerCase : string -> string;
  (** [toLocaleDateString('en-US', {month:'short', day:'numeric', year:'numeric'})] *)
  toLocaleDateString : option Z -> string;
  (** [Date.prototype.toISOString] *)
  toISOString : Z -> string;
  (** the [n]-th value of [Math.random().toString(36).substring(2, 9)] *)
  randomSuffix : nat -> string
}.

(** ** Time values *)

Definition msPerMinute : Z := 60000.
Definition maxTime : Z := 8640000000000000.

(** ECMAScript TimeClip. *)
Definition TimeClip (t : Z) : option Z :=
  if Z.abs t <=? maxTime then Some t else None.

(** The local calendar day, as a day number, of the time value [t]. *)
Definition localDay `{Host} (t : Z) : Z :=
  (t + tzOffset * msPerMinute) / 86400000.

(** [d.setHours(0, 0, 0, 0)] followed by reading the time value: the start
    of the local calendar day that contains [d]. *)
Definition setHours0 `{Host} (d : option Z) : option Z :=
  match d with
  | None => None
  | Some t => TimeClip (localDay t * 86400000 - tzOffset * msPerMinute)
  end.

(** [Math.round(n / d)] for integral [n] and positive integral [d]:
    the nearest integer, a tie going up.  [daysBetween] is called on two
    local midnights of one host, whose difference is a whole number of
    days: there the quotient of the two doubles is exact. *)
Definition Math_round_div (n d : Z) : Z := (2 * n + d) / (2 * d).

(** Comparison of JavaScript numbers: false as soon as one side is NaN. *)
Definition num_ltb (x : option Z) (k : Z) : bool :=
  match x with Some v => v <? k | None => false end.
Definition num_leb (x : option Z) (k : Z) : bool :=
  match x with Some v => v <=? k | None => false end.
Definition num_eqb (x : option Z) (k : Z) : bool :=
  match x with Some v => v =? k | None => false end.

(** ** types/pantry.ts *)

(** The enumerated types; each lives in a module of its own, so that the
    labels keep the names they have in the source ([Unit.g],
    [ExpirationStatus.fresh], [Source.expired]). *)

Module Category.
Inductive t :=
  | Dairy | Produce | MeatSeafood | Bakery | GrainsPasta | CannedGoods
  | FrozenFoods | Beverages | CondimentsSauces | Snacks | SpicesHerbs | Other.
End Category.

Module Unit.
Inductive t :=
  | pieces | cups | lbs | oz | kg | g | ml | liters | gallons | quarts | pints
  | tablespoons | teaspoons | packages | bottles | cans | boxes | bags.
End Unit.

Module ExpirationStatus.
Inductive t := expired | expiring | fresh.
End ExpirationStatus.

(** [ShoppingItem['source']]: ['manual' | 'low-stock' | 'expired'] *)
Module Source.
Inductive t := manual | low_stock | expired.
End Source.

Global Instance Category_eq_dec : EqDecision Category.t.
Proof. solve_decision. Defined.
Global Instance ExpirationStatus_eq_dec : EqDecision ExpirationStatus.t.
Proof. solve_decision. Defined.

Module PantryItem.
Record t := mk {
  id : string;
  name : string;
  category : Category.t;
  quantity : float;
  unit : Unit.t;
  expirationDate : string;
  createdAt : string;
  updatedAt : option string
}.
End PantryItem.

Module ShoppingItem.
Record t := mk {
  id : string;
  name : string;
  category : Category.t;
  quantity : float;
  unit : Unit.t;
  checked : bool;
  source : Source.t;
  createdAt : string
}.
End ShoppingItem.

Module PantryItemFormData.
Record t := mk {
  name : string;
  category : Category.t;
  quantity : float;
  unit : Unit.t;
  expirationDate : string
}.
End PantryItemFormData.

(** [Partial<PantryItemFormData>]: [None] is an absent property. *)
Module PartialFormData.
Record t := mk {
  name : option string;
  category : option Category.t;
  quantity : option float;
  unit : option Unit.t;
  expirationDate : option string
}.
End PartialFormData.

(** [generateId]: [`${Date.now()}-${Math.random().toString(36).substring(2, 9)}`],
    at time [now] and for the [n]-th draw of the random generator. *)
Definition generateId `{Host} (now : Z) (n : nat) : string :=
  (pretty now ++ "-" ++ randomSuffix n)%string.

(** [new Date().toISOString().split('T')[0]] *)
Fixpoint beforeChar (c : ascii) (s : string) : string :=
  match s with
  | EmptyString => EmptyString
  | String a s' => if Ascii.eqb a c then EmptyString else String a (beforeChar c s')
  end.

Definition getTodayISO `{Host} (now : Z) : string :=
  beforeChar "T" (toISOString now).

(** Default values for new items. *)
Definition DEFAULT_PANTRY_ITEM_FORM `{Host} (now : Z) : PantryItemFormData.t :=
  {| PantryItemFormData.name := EmptyString;
     PantryItemFormData.category := Category.Other;
     PantryItemFormData.quantity := 1%float;
     PantryItemFormData.unit := Unit.pieces;
     PantryItemFormData.expirationDate := getTodayISO now |}.

(** ** utils/expiration.ts *)

Definition daysBetween (date1 date2 : option Z) : option Z :=
  let oneDay := 24 * 60 * 60 * 1000 in
  match date1, date2 with
  | Some t1, Some t2 =>
      let diffTime := t2 - t1 in
      Some (Math_round_div diffTime oneDay)
  | _, _ => None
  end.

(** The first five lines shared by [getExpirationStatus] and
    [getExpirationDescription]: the value they call [daysUntilExpiration]
    and [daysUntil]. [now] is the time value of [new Date()]. *)
Definition daysFromToday `{Host} (now : Z) (expirationDate : string) : option Z :=
  let today := setHours0 (Some now) in
  let expDate := setHours0 (Date_parse expirationDate) in
  daysBetween today expDate.

Definition getExpirationStatus `{Host} (now : Z) (expirationDate : string)
  : ExpirationStatus.t :=
  let daysUntilExpiration := daysFromToday now expirationDate in
  if num_ltb daysUntilExpiration 0 then ExpirationStatus.expired
  else if num_leb daysUntilExpiration 3 then ExpirationStatus.expiring
  else ExpirationStatus.fresh.

Definition formatDate `{Host} (dateString : string) : string :=
  toLocaleDateString (Date_parse dateString).

(** A number inside a template literal; NaN prints as "NaN". *)
Definition num_to_string (x : option Z) : string :=
  match x with Some v => pretty v | None => "NaN" end.

Definition getExpirationDescription `{Host} (now : Z) (expirationDate : string)
  : string :=
  let daysUntil := daysFromToday now expirationDate in
  if num_ltb daysUntil 0 then
    let daysPast := option_map Z.abs daysUntil in
    if num_eqb daysPast 1 then "Expired 1 day ago"
    else ("Expired " ++ num_to_string daysPast ++ " days ago")%string
  else if num_eqb daysUntil 0 then "Expires today"
  else if num_eqb daysUntil 1 then "Expires tomorrow"
  else if num_leb daysUntil 3
       then ("Expires in " ++ num_to_string daysUntil ++ " days")%string
  else ("Expires " ++ formatDate expirationDate)%string.

Definition isLowStock (quantity threshold : float) : bool :=
  PrimFloat.ltb quantity threshold.

(** The default value of the parameter [threshold] of [isLowStock]. *)
Definition defaultThreshold : float := 2%float.

(** *** Array.prototype.sort

    The sort is the engine's.  The language fixes what it returns only for
    a consistent comparator: since ECMAScript 2019, the stable sorted
    arrangement of the elements ([stable_sort_unique] below shows there is
    exactly one), which [stable_sort] computes by insertion.  For any other
    comparator, such as one that returns NaN next to a date that does not
    parse, the order is the engine's choice.  SortCompare reads a NaN
    returned by the comparator as +0. *)

Section ArraySort.
Context {T : Type}.
Variable comparefn : T -> T -> option Z.

Definition SortCompare (x y : T) : Z :=
  match comparefn x y with Some v => v | None => 0 end.

Fixpoint sort_insert (x : T) (l : list T) : list T :=
  match l with
  | [] => [x]
  | y :: l' =>
      if SortCompare x y <=? 0 then x :: y :: l' else y :: sort_insert x l'
  end.

Fixpoint stable_sort (l : list T) : list T :=
  match l with
  | [] => []
  | x :: l' => sort_insert x (stable_sort l')
  end.
End ArraySort.

(** The engine's [Array.prototype.sort], as a function from the array's
    elements to their new order. *)
Class Engine :=
  Array_prototype_sort : forall T : Type, (T -> T -> option Z) -> list T -> list T.

(** A comparator that, on the elements of [l], is the difference of an
    integer key.  Such a comparator is consistent on [l]. *)
Definition keyed {T} (comparefn : T -> T -> option Z) (l : list T) : Prop :=
  exists key : T -> Z,
    forall x y, In x l -> In y l -> SortCompare comparefn x y = key x - key y.

(** What the language asks of an engine, as far as it is used here: the
    result is a rearrangement of the elements, and it is the stable sorted
    arrangement when the comparator is the difference of a key. *)
Definition conforms (E : Engine) : Prop :=
  forall (T : Type) (comparefn : T -> T -> option Z) (l : list T),
    Permutation (Array_prototype_sort T comparefn l) l
    /\ (keyed comparefn l ->
        Array_prototype_sort T comparefn l = stable_sort comparefn l).

(** The engine that sorts by stable insertion whatever the comparator. *)
Definition insertionEngine : Engine := fun T comparefn l => stable_sort comparefn l.

(** *** Arrays as objects

    [sort] works in place and returns its receiver, so whether a caller's
    array is reordered depends on which array object is sorted.  Arrays are
    therefore kept in a heap, addressed by reference. *)

Definition loc := positive.

Section Arrays.
Context {T : Type}.
Abbreviation heap := (gmap loc (list T)).

(** [[...a]]: a newly allocated array with the elements of [a]. *)
Definition Array_spread (a : loc) (h : heap) : option (loc * heap) :=
  match h !! a with
  | Some xs => let c := fresh (dom h) in Some (c, <[c := xs]> h)
  | None => None
  end.

(** [a.sort(comparefn)]: reorders [a] itself and returns [a]. *)
Definition Array_sort `{Engine} (comparefn : T -> T -> option Z) (a : loc) (h : heap)
  : option (loc * heap) :=
  match h !! a with
  | Some xs => Some (a, <[a := Array_prototype_sort T comparefn xs]> h)
  | None => None
  end.
End Arrays.

(** Subtraction of JavaScript numbers. *)
Definition num_sub (x y : option Z) : option Z :=
  match x, y with Some a, Some b => Some (a - b) | _, _ => None end.

(** [T extends { expirationDate: string }] *)
Class HasExpirationDate (T : Type) := expirationDateOf : T -> string.
Global Instance PantryItem_expirationDate : HasExpirationDate PantryItem.t :=
  PantryItem.expirationDate.

(** The comparator passed to [sort] by [sortByExpirationDate] and by
    [getSortedByExpiration]. *)
Definition byExpirationDate `{Host} {T} `{HasExpirationDate T} (a b : T)
  : option Z :=
  let dateA := Date_parse (expirationDateOf a) in
  let dateB := Date_parse (expirationDateOf b) in
  num_sub dateA dateB.

(** The parsed expiration date of an element, and the order the sort is
    meant to establish between neighbours: both dates are valid and the
    first is not later than the second. *)
Definition expirationTime `{Host} {T} `{HasExpirationDate T} (x : T) : option Z :=
  Date_parse (expirationDateOf x).

Definition notLater `{Host} {T} `{HasExpirationDate T} (a b : T) : Prop :=
  match expirationTime a, expirationTime b with
  | Some ta, Some tb => ta <= tb
  | _, _ => False
  end.

(** The integer a valid date contributes to the comparator, and the order
    by integer keys. *)
Definition dateKey `{Host} {T} `{HasExpirationDate T} (x : T) : Z :=
  default 0 (expirationTime x).

Definition le_by {T} (key : T -> Z) (a b : T) : Prop := key a <= key b.

Definition sortByExpirationDate `{Host} `{Engine} {T} `{HasExpirationDate T}
    (items : loc) (h : gmap loc (list T)) : option (loc * gmap loc (list T)) :=
  match Array_spread items h with
  | Some (copy, h1) => Array_sort byExpirationDate copy h1
  | None => None
  end.

Definition getExpiredItems `{Host} {T} `{HasExpirationDate T}
    (now : Z) (items : list T) : list T :=
  List.filter
    (fun item =>
       bool_decide (getExpirationStatus now (expirationDateOf item)
                    = ExpirationStatus.expired))
    items.

Definition getExpiringItems `{Host} {T} `{HasExpirationDate T}
    (now : Z) (items : list T) : list T :=
  List.filter
    (fun item =>
       bool_decide (getExpirationStatus now (expirationDateOf item)
                    = ExpirationStatus.expiring))
    items.

(** ** store/usePantryStore.ts *)

(** The state of the store, and with it the one piece of host state the
    actions change: how many values [Math.random] has handed out. *)
Record Store := mkStore {
  items : list PantryItem.t;
  shoppingList : list ShoppingItem.t;
  randomDraws : nat
}.

(** The initial state: [items: [], shoppingList: []]. *)
Definition initialStore : Store := mkStore [] [] 0.

(** [{ ...item, ...data, updatedAt: now }] *)
Definition mergeFormData (item : PantryItem.t) (data : PartialFormData.t)
    (now : string) : PantryItem.t :=
  {| PantryItem.id := PantryItem.id item;
     PantryItem.name := default (PantryItem.name item) (PartialFormData.name data);
     PantryItem.category :=
       default (PantryItem.category item) (PartialFormData.category data);
     PantryItem.quantity :=
       default (PantryItem.quantity item) (PartialFormData.quantity data);
     PantryItem.unit := default (PantryItem.unit item) (PartialFormData.unit data);
     PantryItem.expirationDate :=
       default (PantryItem.expirationDate item) (PartialFormData.expirationDate data);
     PantryItem.createdAt := PantryItem.createdAt item;
     PantryItem.updatedAt := Some now |}.

(** What a spread of [data] over an object does to one field: a supplied
    value replaces the old one, an absent property leaves it. *)
Definition fieldAfter {A} (old : A) (supplied : option A) (new : A) : Prop :=
  match supplied with
  | Some v => new = v
  | None => new = old
  end.

(** [{ ...item, quantity: item.quantity + quantity }] *)
Definition addQuantity (item : ShoppingItem.t) (quantity : float) : ShoppingItem.t :=
  {| ShoppingItem.id := ShoppingItem.id item;
     ShoppingItem.name := ShoppingItem.name item;
     ShoppingItem.category := ShoppingItem.category item;
     ShoppingItem.quantity := PrimFloat.add (ShoppingItem.quantity item) quantity;
     ShoppingItem.unit := ShoppingItem.unit item;
     ShoppingItem.checked := ShoppingItem.checked item;
     ShoppingItem.source := ShoppingItem.source item;
     ShoppingItem.createdAt := ShoppingItem.createdAt item |}.

(** [{ ...item, checked: !item.checked }] *)
Definition flipChecked (item : ShoppingItem.t) : ShoppingItem.t :=
  {| ShoppingItem.id := ShoppingItem.id item;
     ShoppingItem.name := ShoppingItem.name item;
     ShoppingItem.category := ShoppingItem.category item;
     ShoppingItem.quantity := ShoppingItem.quantity item;
     ShoppingItem.unit := ShoppingItem.unit item;
     ShoppingItem.checked := negb (ShoppingItem.checked item);
     ShoppingItem.source := ShoppingItem.source item;
     ShoppingItem.createdAt := ShoppingItem.createdAt item |}.

Section Actions.
Context `{Host}.

Definition addItem (now : Z) (data : PantryItemFormData.t) (s : Store) : Store :=
  let now' := toISOString now in
  let newItem :=
    {| PantryItem.id := generateId now (randomDraws s);
       PantryItem.name := PantryItemFormData.name data;
       PantryItem.category := PantryItemFormData.category data;
       PantryItem.quantity := PantryItemFormData.quantity data;
       PantryItem.unit := PantryItemFormData.unit data;
       PantryItem.expirationDate := PantryItemFormData.expirationDate data;
       PantryItem.createdAt := now';
       PantryItem.updatedAt := Some now' |} in
  {| items := items s ++ [newItem];
     shoppingList := shoppingList s;
     randomDraws := S (randomDraws s) |}.

Definition updateItem (now : Z) (id : string) (data : PartialFormData.t)
    (s : Store) : Store :=
  let now' := toISOString now in
  {| items :=
       map (fun item =>
              if String.eqb (PantryItem.id item) id
              then mergeFormData item data now'
              else item)
           (items s);
     shoppingList := shoppingList s;
     randomDraws := randomDraws s |}.

Definition removeItem (id : string) (s : Store) : Store :=
  {| items :=
       List.filter (fun item => negb (String.eqb (PantryItem.id item) id)) (items s);
     shoppingList := shoppingList s;
     randomDraws := randomDraws s |}.

Definition getItemById (id : string) (s : Store) : option PantryItem.t :=
  List.find (fun item => String.eqb (PantryItem.id item) id) (items s).

(** [item.name.toLowerCase() === name.toLowerCase()] *)
Definition sameName (name : string) (item : ShoppingItem.t) : bool :=
  String.eqb (toLowerCase (ShoppingItem.name item)) (toLowerCase name).

Definition addToShoppingList (now : Z) (name : string) (category : Category.t)
    (quantity : float) (unit : Unit.t) (source : Source.t) (s : Store) : Store :=
  let existing := List.find (sameName name) (shoppingList s) in
  match existing with
  | Some existing =>
      {| items := items s;
         shoppingList :=
           map (fun item =>
                  if String.eqb (ShoppingItem.id item) (ShoppingItem.id existing)
                  then addQuantity item quantity
                  else item)
               (shoppingList s);
         randomDraws := randomDraws s |}
  | None =>
      let newItem :=
        {| ShoppingItem.id := generateId now (randomDraws s);
           ShoppingItem.name := name;
           ShoppingItem.category := category;
           ShoppingItem.quantity := quantity;
           ShoppingItem.unit := unit;
           ShoppingItem.checked := false;
           ShoppingItem.source := source;
           ShoppingItem.createdAt := toISOString now |} in
      {| items := items s;
         shoppingList := shoppingList s ++ [newItem];
         randomDraws := S (randomDraws s) |}
  end.

Definition toggleShoppingItem (id : string) (s : Store) : Store :=
  {| items := items s;
     shoppingList :=
       map (fun item =>
              if String.eqb (ShoppingItem.id item) id then flipChecked item else item)
           (shoppingList s);
     randomDraws := randomDraws s |}.

Definition removeShoppingItem (id : string) (s : Store) : Store :=
  {| items := items s;
     shoppingList :=
       List.filter (fun item => negb (String.eqb (ShoppingItem.id item) id))
                   (shoppingList s);
     randomDraws := randomDraws s |}.

Definition clearCheckedItems (s : Store) : Store :=
  {| items := items s;
     shoppingList :=
       List.filter (fun item => negb (ShoppingItem.checked item)) (shoppingList s);
     randomDraws := randomDraws s |}.

Definition clearShoppingList (s : Store) : Store :=
  {| items := items s; shoppingList := []; randomDraws := randomDraws s |}.

(** The pantry items [autoAddLowStockToShoppingList] selects. *)
Definition lowStockItems (now : Z) (s : Store) : list PantryItem.t :=
  List.filter
    (fun item =>
       isLowStock (PantryItem.quantity item) defaultThreshold
       && negb (bool_decide
                  (getExpirationStatus now (PantryItem.expirationDate item)
                   = ExpirationStatus.expired)))
    (items s).

(** [forEach] runs the calls one after the other, each on the state the
    previous one left. *)
Definition autoAddLowStockToShoppingList (now : Z) (s : Store) : nat * Store :=
  let lowStockItems := lowStockItems now s in
  let s' :=
    fold_left
      (fun s item =>
         addToShoppingList now
           (PantryItem.name item) (PantryItem.category item)
           2%float (PantryItem.unit item) Source.low_stock s)
      lowStockItems s in
  (length lowStockItems, s').

(** The pantry items [autoAddExpiredToShoppingList] selects. *)
Definition expiredItems (now : Z) (s : Store) : list PantryItem.t :=
  List.filter
    (fun item =>
       bool_decide
         (getExpirationStatus now (PantryItem.expirationDate item)
          = ExpirationStatus.expired))
    (items s).

Definition autoAddExpiredToShoppingList (now : Z) (s : Store) : nat * Store :=
  let expiredItems := expiredItems now s in
  let s' :=
    fold_left
      (fun s item =>
         addToShoppingList now
           (PantryItem.name item) (PantryItem.category item)
           1%float (PantryItem.unit item) Source.expired s)
      expiredItems s in
  (length expiredItems, s').

Definition getItemsByCategory (category : Category.t) (s : Store)
  : list PantryItem.t :=
  List.filter (fun item => bool_decide (PantryItem.category item = category))
              (items s).

(** [[...get().items].sort(...)]; [itemsRef] is the array object that
    [get().items] evaluates to. *)
Definition getSortedByExpiration `{Engine} (itemsRef : loc)
    (h : gmap loc (list PantryItem.t))
  : option (loc * gmap loc (list PantryItem.t)) :=
  match Array_spread itemsRef h with
  | Some (copy, h1) => Array_sort byExpirationDate copy h1
  | None => None
  end.

End Actions.

(** ** A reference host

    An executable [Host], for running the code on concrete inputs.  Dates
    follow the proleptic Gregorian calendar.  [Date_parse] reads the
    date-only form [YYYY-MM-DD] of the ECMAScript date-time string format,
    which denotes midnight UTC of that day; every other string is an Invalid
    Date here.  The local time zone is a fixed offset from UTC. *)

Module RefHost.

(** Days from 1970-01-01 to the civil date [y]-[m]-[d]. *)
Definition days_from_civil (y m d : Z) : Z :=
  let y' := if m <=? 2 then y - 1 else y in
  let era := y' / 400 in
  let yoe := y' - era * 400 in
  let mp := (m + 9) mod 12 in
  let doy := (153 * mp + 2) / 5 + d - 1 in
  let doe := yoe * 365 + yoe / 4 - yoe / 100 + doy in
  era * 146097 + doe - 719468.

(** The civil date (year, month, day) of a day number. *)
Definition civil_from_days (z : Z) : Z * Z * Z :=
  let z' := z + 719468 in
  let era := z' / 146097 in
  let doe := z' - era * 146097 in
  let yoe := (doe - doe / 1460 + doe / 36524 - doe / 146096) / 365 in
  let doy := doe - (365 * yoe + yoe / 4 - yoe / 100) in
  let mp := (5 * doy + 2) / 153 in
  let d := doy - (153 * mp + 2) / 5 + 1 in
  let m := if mp <? 10 then mp + 3 else mp - 9 in
  let y := yoe + era * 400 in
  (if m <=? 2 then y + 1 else y, m, d).

Definition isLeap (y : Z) : bool :=
  ((y mod 4 =? 0) && negb (y mod 100 =? 0)) || (y mod 400 =? 0).

Definition daysInMonth (y m : Z) : Z :=
  if m =? 2 then (if isLeap y then 29 else 28)
  else if (m =? 4) || (m =? 6) || (m =? 9) || (m =? 11) then 30
  else 31.

Definition digit (c : ascii) : option Z :=
  let n := Z.of_nat (nat_of_ascii c) in
  if (48 <=? n) && (n <=? 57) then Some (n - 48) else None.

Fixpoint digits (acc : Z) (cs : list ascii) : option Z :=
  match cs with
  | [] => Some acc
  | c :: cs' =>
      match digit c with
      | Some v => digits (10 * acc + v) cs'
      | None => None
      end
  end.

Definition parseDateOnly (s : string) : option Z :=
  match list_ascii_of_string s with
  | [y1; y2; y3; y4; "-"%char; m1; m2; "-"%char; d1; d2] =>
      match digits 0 [y1; y2; y3; y4], digits 0 [m1; m2], digits 0 [d1; d2] with
      | Some y, Some m, Some d =>
          if (1 <=? m) && (m <=? 12) && (1 <=? d) && (d <=? daysInMonth y m)
          then Some (days_from_civil y m d * 86400000)
          else None
      | _, _, _ => None
      end
  | _ => None
  end.

(** [v] in decimal, padded with zeros on the left up to [width] digits. *)
Definition pad (width : nat) (v : Z) : string :=
  let s := pretty v in
  (String.concat EmptyString (repeat "0" (width - String.length s)) ++ s)%string.

Definition monthName (m : Z) : string :=
  nth (Z.to_nat (m - 1))
      ["Jan"; "Feb"; "Mar"; "Apr"; "May"; "Jun";
       "Jul"; "Aug"; "Sep"; "Oct"; "Nov"; "Dec"]%string EmptyString.

Definition formatShort (tz : Z) (t : option Z) : string :=
  match t with
  | None => "Invalid Date"
  | Some t =>
      let '(y, m, d) := civil_from_days ((t + tz * msPerMinute) / 86400000) in
      (monthName m ++ " " ++ pretty d ++ ", " ++ pretty y)%string
  end.

Definition formatISO (t : Z) : string :=
  let '(y, m, d) := civil_from_days (t / 86400000) in
  let r := t mod 86400000 in
  let year :=
    if (0 <=? y) && (y <=? 9999) then pad 4 y
    else ((if (y <? 0)%Z then "-" else "+") ++ pad 6 (Z.abs y))%string in
  (year ++ "-" ++ pad 2 m ++ "-" ++ pad 2 d ++ "T"
        ++ pad 2 (r / 3600000) ++ ":" ++ pad 2 (r / 60000 mod 60) ++ ":"
        ++ pad 2 (r / 1000 mod 60) ++ "." ++ pad 3 (r mod 1000) ++ "Z")%string.

Definition lowerAscii (c : ascii) : ascii :=
  let n := nat_of_ascii c in
  if (65 <=? n)%nat && (n <=? 90)%nat then ascii_of_nat (n + 32) else c.

Definition lower (s : string) : string :=
  string_of_list_ascii (map lowerAscii (list_ascii_of_string s)).

(** The host whose local time is UTC + [tz] minutes.  Its random
    generator is a counter: the [n]-th suffix is [n] in seven digits. *)
Definition host (tz : Z) : Host :=
  {| Date_parse := parseDateOnly;
     tzOffset := tz;
     toLowerCase := lower;
     toLocaleDateString := formatShort tz;
     toISOString := formatISO;
     randomSuffix := fun n => pad 7 (Z.of_nat n) |}.

End RefHost.

(** ** Sample data

    A pantry and a shopping list, for running the actions on the reference
    host.  [noon] is 2024-01-15T17:00:00.000Z. *)

Module Sample.

(** The reference host at UTC, and five hours west of it. *)
Definition utc : Host := RefHost.host 0.
Definition west : Host := RefHost.host (-300).

Definition noon : Z := 1705338000000.

Definition milk : PantryItem.t :=
  PantryItem.mk "1705000000000-k3x9q2a" "Milk" Category.Dairy 1%float Unit.liters
    "2024-01-17" "2024-01-11T19:06:40.000Z" None.

Definition bread : PantryItem.t :=
  PantryItem.mk "1705000000001-p0w8e7b" "Bread" Category.Bakery 1%float Unit.pieces
    "2024-01-14" "2024-01-11T19:06:40.001Z" None.

Definition rice : PantryItem.t :=
  PantryItem.mk "1705000000002-z5c4v3n" "Rice" Category.GrainsPasta 3%float Unit.kg
    "2024-01-17" "2024-01-11T19:06:40.002Z" None.

Definition yogurt : PantryItem.t :=
  PantryItem.mk "1705000000003-m1n2b3v" "Yogurt" Category.Dairy 4%float Unit.cups
    "2024-01-14" "2024-01-11T19:06:40.003Z" None.

Definition eggsEntry : ShoppingItem.t :=
  ShoppingItem.mk "1705100000000-a1b2c3d" "Eggs" Category.Dairy 12%float
    Unit.pieces false Source.manual "2024-01-12T22:53:20.000Z".

Definition milkEntry : ShoppingItem.t :=
  ShoppingItem.mk "1705100000001-e4f5g6h" "Milk" Category.Dairy 2%float
    Unit.liters false Source.low_stock "2024-01-12T22:53:20.001Z".

Definition saltEntry : ShoppingItem.t :=
  ShoppingItem.mk "1705100000002-i7j8k9l" "Salt" Category.SpicesHerbs 1%float
    Unit.packages false Source.manual "2024-01-12T22:53:20.002Z".

Definition store : Store :=
  {| items := [milk; bread; rice; yogurt];
     shoppingList := [eggsEntry; milkEntry; saltEntry];
     randomDraws := 7 |}.

(** Only the bread, past its date, and nothing to buy yet. *)
Definition staleStore : Store :=
  {| items := [bread]; shoppingList := []; randomDraws := 0 |}.

(** The heap in which the array of pantry items is the object at address 1. *)
Definition heap : gmap loc (list PantryItem.t) := {[ 1%positive := items store ]}.

End Sample.

(** ** Colours, counters of the screens, traces of actions *)

(** [getExpirationColor] and [getExpirationBackgroundColor].  The type
    [ExpirationStatus] has the three labels only, so the [default] branch
    of the two [switch] statements has no input. *)
Definition getExpirationColor (status : ExpirationStatus.t) : string :=
  match status with
  | ExpirationStatus.expired => "#EF4444"
  | ExpirationStatus.expiring => "#F59E0B"
  | ExpirationStatus.fresh => "#22C55E"
  end.

Definition getExpirationBackgroundColor (status : ExpirationStatus.t) : string :=
  match status with
  | ExpirationStatus.expired => "#FEE2E2"
  | ExpirationStatus.expiring => "#FEF3C7"
  | ExpirationStatus.fresh => "#DCFCE7"
  end.

(** [CATEGORIES], the labels in the order of the source. *)
Definition CATEGORIES : list Category.t :=
  [ Category.Dairy; Category.Produce; Category.MeatSeafood; Category.Bakery;
    Category.GrainsPasta; Category.CannedGoods; Category.FrozenFoods;
    Category.Beverages; Category.CondimentsSauces; Category.Snacks;
    Category.SpicesHerbs; Category.Other ].

(** The shopping screen: [shoppingList.filter((item) => item.checked).length]. *)
Definition checkedCount (s : Store) : nat :=
  length (List.filter (fun item => ShoppingItem.checked item) (shoppingList s)).

(** The pantry screen: [getExpiredItems(items).length] and
    [getExpiringItems(items).length]. *)
Definition expiredCount `{Host} (now : Z) (s : Store) : nat :=
  length (getExpiredItems now (items s)).

Definition expiringCount `{Host} (now : Z) (s : Store) : nat :=
  length (getExpiringItems now (items s)).

(** The condition under which the pantry screen shows its status summary:
    [items.length > 0 && (expiredCount > 0 || expiringCount > 0)]. *)
Definition showsStatusSummary `{Host} (now : Z) (s : Store) : bool :=
  (0 <? length (items s))%nat
  && ((0 <? expiredCount now s)%nat || (0 <? expiringCount now s)%nat).

(** How pressing a status is: expired before expiring before fresh. *)
Definition statusRank (status : ExpirationStatus.t) : Z :=
  match status with
  | ExpirationStatus.expired => 0
  | ExpirationStatus.expiring => 1
  | ExpirationStatus.fresh => 2
  end.

(** The name of an entry as [addToShoppingList] compares it, and all of an
    entry but its quantity. *)
Definition lowerName `{Host} (item : ShoppingItem.t) : string :=
  toLowerCase (ShoppingItem.name item).

Definition lowerNames `{Host} (s : Store) : list string :=
  map lowerName (shoppingList s).

Definition entryFrame (item : ShoppingItem.t)
  : string * string * Category.t * Unit.t * bool * Source.t * string :=
  (ShoppingItem.id item, ShoppingItem.name item, ShoppingItem.category item,
   ShoppingItem.unit item, ShoppingItem.checked item, ShoppingItem.source item,
   ShoppingItem.createdAt item).

(** The mutating actions of the store, as values, and a run of them from a
    state: what a session of the application does to the store. *)
Inductive Action :=
  | AddItem (now : Z) (data : PantryItemFormData.t)
  | UpdateItem (now : Z) (id : string) (data : PartialFormData.t)
  | RemoveItem (id : string)
  | AddToShoppingList (now : Z) (name : string) (category : Category.t)
      (quantity : float) (unit : Unit.t) (source : Source.t)
  | ToggleShoppingItem (id : string)
  | RemoveShoppingItem (id : string)
  | ClearCheckedItems
  | ClearShoppingList
  | AutoAddLowStockToShoppingList (now : Z)
  | AutoAddExpiredToShoppingList (now : Z).

Definition perform `{Host} (a : Action) (s : Store) : Store :=
  match a with
  | AddItem now data => addItem now data s
  | UpdateItem now id data => updateItem now id data s
  | RemoveItem id => removeItem id s
  | AddToShoppingList now name category quantity unit source =>
      addToShoppingList now name category quantity unit source s
  | ToggleShoppingItem id => toggleShoppingItem id s
  | RemoveShoppingItem id => removeShoppingItem id s
  | ClearCheckedItems => clearCheckedItems s
  | ClearShoppingList => clearShoppingList s
  | AutoAddLowStockToShoppingList now => snd (autoAddLowStockToShoppingList now s)
  | AutoAddExpiredToShoppingList now => snd (autoAddExpiredToShoppingList now s)
  end.

Definition run `{Host} (actions : list Action) (s : Store) : Store :=
  fold_left (fun s a => perform a s) actions s.

(** More sample data: a jar of honey whose date has the shape the form
    accepts but names no day, and a session of the application. *)

Module MoreSamples.

Definition honey : PantryItem.t :=
  PantryItem.mk "1705000000004-q1w2e3r" "Honey" Category.Other 1%float Unit.bottles
    "2024-13-45" "2024-01-11T19:06:40.004Z" None.

Definition store : Store :=
  {| items := [Sample.milk; honey]; shoppingList := []; randomDraws := 0 |}.

Definition cheese : PantryItem.t :=
  PantryItem.mk "1703000000000-c4h5e6s" "Cheese" Category.Dairy 1%float Unit.pieces
    "2024-01-05" "2023-12-19T15:33:20.000Z" None.

Definition cream : PantryItem.t :=
  PantryItem.mk "1703000000001-c7r8e9a" "Cream" Category.Dairy 1%float Unit.cups
    "2024-01-01" "2023-12-19T15:33:20.001Z" None.

(** The heap in which the array [cheese; honey; cream] is the object at
    address 1. *)
Definition heap : gmap loc (list PantryItem.t) :=
  {[ 1%positive := [cheese; honey; cream] ]}.




Definition session : list Action :=
  [ AddToShoppingList Sample.noon "MILK" Category.Dairy 1%float Unit.liters
      Source.manual;
    ToggleShoppingItem "1705100000000-a1b2c3d";
    AutoAddExpiredToShoppingList Sample.noon;
    AutoAddLowStockToShoppingList Sample.noon;
    ClearCheckedItems;
    AddToShoppingList (Sample.noon + 5) "bread" Category.Bakery 2%float
      Unit.pieces Source.manual ].

End MoreSamples.

(** * Properties *)

(** ** Day differences *)

Lemma Math_round_div_exact (k d : Z) : 0 < d -> Math_round_div (k * d) d = k.
Proof.
  intros Hd. unfold Math_round_div.
  replace (2 * (k * d) + d) with (d + k * (2 * d)) by ring.
  rewrite Z.div_add by lia. rewrite Z.div_small by lia. lia.
Qed.

(** Rounding absorbs a deviation of less than half a day, which is what
    makes [daysBetween] robust when two local midnights are 23 or 25 hours
    apart. *)
Lemma Math_round_div_near (k r d : Z) :
  0 < d -> - d <= 2 * r < d -> Math_round_div (k * d + r) d = k.
Proof.
  intros Hd Hr. unfold Math_round_div.
  replace (2 * (k * d + r) + d) with ((2 * r + d) + k * (2 * d)) by ring.
  rewrite Z.div_add by lia. rewrite Z.div_small by lia. lia.
Qed.

Lemma TimeClip_Some (t t' : Z) : TimeClip t = Some t' -> t' = t.
Proof. unfold TimeClip. destruct (Z.abs t <=? maxTime); congruence. Qed.

Section Classifier.
Context `{Host}.

Lemma setHours0_Some (t t' : Z) :
  setHours0 (Some t) = Some t' ->
  t' = localDay t * 86400000 - tzOffset * msPerMinute.
Proof. unfold setHours0. apply TimeClip_Some. Qed.

(** Whatever the host, the day difference the classifier works with is the
    difference of the two local calendar days. *)
Lemma daysFromToday_localDay (now : Z) (s : string) (t d : Z) :
  Date_parse s = Some t ->
  daysFromToday now s = Some d ->
  d = localDay t - localDay now.
Proof.
  unfold daysFromToday, daysBetween. intros ->.
  destruct (setHours0 (Some now)) as [a|] eqn:Ha; [|discriminate].
  destruct (setHours0 (Some t)) as [b|] eqn:Hb; [|discriminate].
  apply setHours0_Some in Ha, Hb. subst a b. intros [= <-].
  change (24 * 60 * 60 * 1000) with 86400000.
  replace (localDay t * 86400000 - tzOffset * msPerMinute
           - (localDay now * 86400000 - tzOffset * msPerMinute))
    with ((localDay t - localDay now) * 86400000) by ring.
  apply Math_round_div_exact. lia.
Qed.

(** A date-only string denotes midnight UTC of its day [D].  Seen from a
    zone east of Greenwich (or from UTC) that instant lies in day [D]; seen
    from a zone west of Greenwich it lies in day [D - 1]. *)
Lemma localDay_of_utc_midnight (D : Z) :
  localDay (D * 86400000) = D + tzOffset * msPerMinute / 86400000.
Proof.
  unfold localDay. rewrite Z.add_comm, Z.div_add by lia. ring.
Qed.

Lemma daysFromToday_date_only_east (now : Z) (s : string) (D d : Z) :
  0 <= tzOffset < 1440 ->
  Date_parse s = Some (D * 86400000) ->
  daysFromToday now s = Some d ->
  d = D - localDay now.
Proof.
  intros Htz Hs Hd.
  rewrite (daysFromToday_localDay now s _ d Hs Hd), localDay_of_utc_midnight.
  unfold msPerMinute. rewrite Z.div_small by lia. ring.
Qed.

Lemma daysFromToday_date_only_west (now : Z) (s : string) (D d : Z) :
  -1440 <= tzOffset < 0 ->
  Date_parse s = Some (D * 86400000) ->
  daysFromToday now s = Some d ->
  d = D - localDay now - 1.
Proof.
  intros Htz Hs Hd.
  rewrite (daysFromToday_localDay now s _ d Hs Hd), localDay_of_utc_midnight.
  unfold msPerMinute.
  replace (tzOffset * 60000 / 86400000) with (-1); [ring|].
  apply Z.div_unique with (r := tzOffset * 60000 + 86400000); lia.
Qed.

(** West of Greenwich the date-only string of the current local day is a
    day behind before the comparison starts. *)
Lemma daysFromToday_today_west (now : Z) (s : string) (d : Z) :
  -1440 <= tzOffset < 0 ->
  Date_parse s = Some (localDay now * 86400000) ->
  daysFromToday now s = Some d ->
  d = -1.
Proof.
  intros Htz Hs Hd.
  rewrite (daysFromToday_date_only_west now s (localDay now) d Htz Hs Hd). ring.
Qed.

(** The three-way classification by the day difference [d]. *)
Lemma getExpirationStatus_by_days (now : Z) (s : string) (d : Z) :
  daysFromToday now s = Some d ->
  (getExpirationStatus now s = ExpirationStatus.expired <-> d < 0)
  /\ (getExpirationStatus now s = ExpirationStatus.expiring <-> 0 <= d <= 3)
  /\ (getExpirationStatus now s = ExpirationStatus.fresh <-> 3 < d).
Proof.
  intros Hd. unfold getExpirationStatus. rewrite Hd. simpl.
  destruct (Z.ltb_spec d 0); [|destruct (Z.leb_spec d 3)];
    repeat split; intros; try lia; try discriminate; reflexivity.
Qed.

(** An Invalid Date makes every comparison false: the item counts as fresh. *)
Lemma getExpirationStatus_invalid (now : Z) (s : string) :
  Date_parse s = None -> getExpirationStatus now s = ExpirationStatus.fresh.
Proof.
  intros Hs. unfold getExpirationStatus, daysFromToday. rewrite Hs.
  destruct (setHours0 (Some now)); reflexivity.
Qed.

End Classifier.

(** ** Printing numbers *)

Lemma String_length_append (s1 s2 : string) :
  String.length (s1 ++ s2) = (String.length s1 + String.length s2)%nat.
Proof. induction s1 as [|c s1 IH]; simpl; [reflexivity | now rewrite IH]. Qed.

Lemma pretty_N_go_length (x : N) (s : string) :
  (String.length s <= String.length (pretty_N_go x s))%nat.
Proof.
  revert s. induction (N.lt_wf_0 x) as [x _ IH]. intros s.
  destruct (N.eq_dec x 0%N) as [->|Hx].
  - rewrite pretty_N_go_0. lia.
  - rewrite pretty_N_go_step by lia.
    etransitivity; [|apply IH, N.div_lt; lia]. simpl. lia.
Qed.

Lemma pretty_Z_nonempty (v : Z) : (1 <= String.length (pretty v))%nat.
Proof.
  assert (HN : forall n : N, (1 <= String.length (pretty n))%nat).
  { intros n. unfold pretty, pretty_N. destruct (decide (n = 0%N)) as [->|Hn].
    - simpl. lia.
    - rewrite pretty_N_go_step by lia.
      etransitivity; [|apply pretty_N_go_length]. simpl. lia. }
  destruct v as [|p|p]; unfold pretty, pretty_Z.
  - simpl. lia.
  - apply (HN (Npos p)).
  - simpl. lia.
Qed.

Lemma pretty_N_go_chars (c : ascii) (x : N) (s : string) :
  In c (list_ascii_of_string (pretty_N_go x s)) ->
  In c (list_ascii_of_string s) \/ exists k, c = pretty_N_char k.
Proof.
  revert s. induction (N.lt_wf_0 x) as [x _ IH]. intros s.
  destruct (N.eq_dec x 0%N) as [->|Hx].
  - rewrite pretty_N_go_0. now left.
  - rewrite pretty_N_go_step by lia. intros Hin.
    apply IH in Hin; [|apply N.div_lt; lia].
    destruct Hin as [Hin|Hin]; [|now right].
    cbn in Hin. destruct Hin as [<-|Hin]; [right; eauto|now left].
Qed.

Lemma pretty_nonneg_no_dash (v : Z) :
  0 <= v -> ~ In "-"%char (list_ascii_of_string (pretty v)).
Proof.
  intros Hv Hin. destruct v as [|p|p]; [| |lia].
  - cbn in Hin. destruct Hin as [Hin|[]]. discriminate.
  - change (pretty (Z.pos p)) with (pretty_N_go (N.pos p) EmptyString) in Hin.
    apply pretty_N_go_chars in Hin as [[]|[k Hk]].
    unfold pretty_N_char in Hk. repeat case_match; discriminate.
Qed.

(** Two strings with a dash after a dash-free head are equal only if the
    heads are equal and the rests are. *)
Lemma dash_splits (a b r r' : string) :
  ~ In "-"%char (list_ascii_of_string a) ->
  ~ In "-"%char (list_ascii_of_string b) ->
  (a ++ "-" ++ r)%string = (b ++ "-" ++ r')%string ->
  a = b /\ r = r'.
Proof.
  revert b. induction a as [|c a IH]; intros [|c' b] Ha Hb Heq; cbn in *.
  - injection Heq as Hr. now split.
  - injection Heq as Hc _. exfalso. apply Hb. left. congruence.
  - injection Heq as Hc _. exfalso. apply Ha. left. congruence.
  - injection Heq as Hc Heq. subst c'.
    destruct (IH b) as [Hab Hr]; [tauto|tauto|exact Heq|]. subst. now split.
Qed.


(** The plural phrase is never the singular one. *)
Lemma plural_is_not_singular (v : Z) :
  ("Expired " ++ pretty v ++ " days ago")%string <> "Expired 1 day ago"%string.
Proof.
  intros Heq. apply (f_equal String.length) in Heq.
  rewrite !String_length_append in Heq. simpl in Heq.
  pose proof (pretty_Z_nonempty v). lia.
Qed.

(** ** The expiration classifier *)

(** C1 (evaluation of the code where it departs from the claim).  On a host
    five hours west of Greenwich, at noon local time of 15 January 2024,
    the classifier calls an item expiring that same day, "2024-01-15",
    expired instead of expiring, and an item expiring four days later,
    "2024-01-19", expiring instead of fresh: [new Date("2024-01-15")] is
    midnight UTC, which [setHours(0, 0, 0, 0)] moves back to the local
    midnight of 14 January.  "2024-01-15" is also the date the form
    proposes by default at that moment. *)
Theorem getExpirationStatus_west_of_Greenwich :
  @toISOString Sample.west Sample.noon = "2024-01-15T17:00:00.000Z"%string
  /\ @localDay Sample.west Sample.noon = RefHost.days_from_civil 2024 1 15
  /\ PantryItemFormData.expirationDate
       (@DEFAULT_PANTRY_ITEM_FORM Sample.west Sample.noon) = "2024-01-15"%string
  /\ @daysFromToday Sample.west Sample.noon "2024-01-15" = Some (-1)
  /\ @getExpirationStatus Sample.west Sample.noon "2024-01-15"
     = ExpirationStatus.expired
  /\ @daysFromToday Sample.west Sample.noon "2024-01-19" = Some 3
  /\ @getExpirationStatus Sample.west Sample.noon "2024-01-19"
     = ExpirationStatus.expiring.
Proof. repeat split; vm_compute; reflexivity. Qed.

(** The same instant and the same dates on a host at UTC: the day
    differences are 0 and 4, and the classes those the boundary cases
    call for. *)
Lemma getExpirationStatus_at_UTC :
  @getExpirationStatus Sample.utc Sample.noon "2024-01-15" = ExpirationStatus.expiring
  /\ @getExpirationStatus Sample.utc Sample.noon "2024-01-18"
     = ExpirationStatus.expiring
  /\ @getExpirationStatus Sample.utc Sample.noon "2024-01-19" = ExpirationStatus.fresh
  /\ @getExpirationStatus Sample.utc Sample.noon "2024-01-14"
     = ExpirationStatus.expired.
Proof. repeat split; vm_compute; reflexivity. Qed.

(** C9 (evaluation of the code where it departs from the claim).  On the
    host five hours west of Greenwich, at noon local time of 15 January
    2024, a date of that same day is described as "Expired 1 day ago"
    instead of "Expires today", the next day's date as "Expires today"
    instead of "Expires tomorrow", the date four days ahead as "Expires in
    3 days" instead of by its date, and "2024-01-25" as "Expires Jan 24,
    2024": the day difference is one too small, as in
    [getExpirationStatus], and the date is parsed as midnight UTC and
    printed in local time. *)
Theorem getExpirationDescription_west_of_Greenwich :
  @localDay Sample.west Sample.noon = RefHost.days_from_civil 2024 1 15
  /\ @getExpirationDescription Sample.west Sample.noon "2024-01-15"
     = "Expired 1 day ago"%string
  /\ @getExpirationDescription Sample.west Sample.noon "2024-01-16"
     = "Expires today"%string
  /\ @getExpirationDescription Sample.west Sample.noon "2024-01-19"
     = "Expires in 3 days"%string
  /\ @getExpirationDescription Sample.west Sample.noon "2024-01-25"
     = "Expires Jan 24, 2024"%string.
Proof. repeat split; vm_compute; reflexivity. Qed.

(** The same instant and the same dates on a host at UTC. *)
Lemma getExpirationDescription_at_UTC :
  @getExpirationDescription Sample.utc Sample.noon "2024-01-15"
  = "Expires today"%string
  /\ @getExpirationDescription Sample.utc Sample.noon "2024-01-16"
     = "Expires tomorrow"%string
  /\ @getExpirationDescription Sample.utc Sample.noon "2024-01-19"
     = "Expires Jan 19, 2024"%string
  /\ @getExpirationDescription Sample.utc Sample.noon "2024-01-25"
     = "Expires Jan 25, 2024"%string.
Proof. repeat split; vm_compute; reflexivity. Qed.

(** The description by the day difference the function computes.  With [d]
    the value of [daysFromToday], [getExpirationDescription] returns
    "Expired N days ago" with N = |d| when d < 0, in the singular
    "Expired 1 day ago" exactly when N = 1; "Expires today" when d = 0;
    "Expires tomorrow" when d = 1; "Expires in d days" when 2 <= d <= 3;
    and "Expires " followed by the formatted date when d > 3. *)
Theorem getExpirationDescription_by_days `{Host} (now : Z) (s : string) (d : Z) :
  daysFromToday now s = Some d ->
  (d < 0 -> Z.abs d = 1 ->
     getExpirationDescription now s = "Expired 1 day ago"%string)
  /\ (d < 0 -> Z.abs d <> 1 ->
        getExpirationDescription now s
        = ("Expired " ++ pretty (Z.abs d) ++ " days ago")%string)
  /\ (d < 0 ->
        (getExpirationDescription now s = "Expired 1 day ago"%string
         <-> Z.abs d = 1))
  /\ (d = 0 -> getExpirationDescription now s = "Expires today"%string)
  /\ (d = 1 -> getExpirationDescription now s = "Expires tomorrow"%string)
  /\ (2 <= d <= 3 ->
        getExpirationDescription now s
        = ("Expires in " ++ pretty d ++ " days")%string)
  /\ (3 < d ->
        getExpirationDescription now s
        = ("Expires " ++ toLocaleDateString (Date_parse s))%string).
Proof.
  intros Hd. unfold getExpirationDescription, formatDate. rewrite Hd.
  cbn [num_ltb num_leb num_eqb num_to_string option_map].
  repeat split.
  - intros Hneg Habs.
    destruct (Z.ltb_spec d 0); [|lia]. destruct (Z.eqb_spec (Z.abs d) 1); [|lia].
    reflexivity.
  - intros Hneg Hne.
    destruct (Z.ltb_spec d 0); [|lia]. destruct (Z.eqb_spec (Z.abs d) 1); [lia|].
    reflexivity.
  - destruct (Z.ltb_spec d 0); [|lia]. destruct (Z.eqb_spec (Z.abs d) 1); [easy|].
    intros Heq. now apply plural_is_not_singular in Heq.
  - intros Habs.
    destruct (Z.ltb_spec d 0); [|lia]. destruct (Z.eqb_spec (Z.abs d) 1); [|lia].
    reflexivity.
  - intros ->. reflexivity.
  - intros ->. reflexivity.
  - intros Hr.
    destruct (Z.ltb_spec d 0); [lia|]. destruct (Z.eqb_spec d 0); [lia|].
    destruct (Z.eqb_spec d 1); [lia|]. destruct (Z.leb_spec d 3); [|lia].
    reflexivity.
  - intros Hr.
    destruct (Z.ltb_spec d 0); [lia|]. destruct (Z.eqb_spec d 0); [lia|].
    destruct (Z.eqb_spec d 1); [lia|]. destruct (Z.leb_spec d 3); [lia|].
    reflexivity.
Qed.

(** ** Lists: first match, no match, update of the one element with a key *)


Lemma lookup_map {A B} (f : A -> B) (l : list A) (i : nat) (x : A) :
  l !! i = Some x -> map f l !! i = Some (f x).
Proof.
  revert i. induction l as [|a l IH]; intros [|i] Hi; try discriminate; simpl in *.
  - now injection Hi as ->.
  - now apply IH.
Qed.

Lemma find_no_match {A} (p : A -> bool) (l : list A) :
  Forall (fun x => p x = false) l -> List.find p l = None.
Proof. induction 1 as [|a l Ha _ IH]; simpl; [reflexivity | now rewrite Ha]. Qed.

Lemma filter_no_match {A} (p : A -> bool) (l : list A) :
  Forall (fun x => p x = false) l -> List.filter p l = [].
Proof. induction 1 as [|a l Ha _ IH]; simpl; [reflexivity | now rewrite Ha]. Qed.

Lemma filter_all_match {A} (p : A -> bool) (l : list A) :
  Forall (fun x => p x = true) l -> List.filter p l = l.
Proof. induction 1 as [|a l Ha _ IH]; simpl; [reflexivity | now rewrite Ha, IH]. Qed.

Lemma map_no_match {A} (p : A -> bool) (f : A -> A) (l : list A) :
  Forall (fun x => p x = false) l ->
  map (fun x => if p x then f x else x) l = l.
Proof. induction 1 as [|a l Ha _ IH]; simpl; [reflexivity | now rewrite Ha, IH]. Qed.


(** ** The shopping list: adding and merging *)

Section ShoppingList.
Context `{Host}.




(** The ids stay pairwise distinct as long as the generated id is not one
    already in the list. *)
Lemma addToShoppingList_ids_distinct now name category quantity unit source s :
  NoDup (map ShoppingItem.id (shoppingList s)) ->
  generateId now (randomDraws s) ∉ map ShoppingItem.id (shoppingList s) ->
  NoDup (map ShoppingItem.id
           (shoppingList (addToShoppingList now name category quantity unit source s))).
Proof.
  intros Hnd Hnew. unfold addToShoppingList.
  destruct (List.find _ _) as [existing|]; cbn [shoppingList].
  - rewrite map_map.
    erewrite map_ext; [exact Hnd|].
    intros item. now destruct (String.eqb _ _).
  - rewrite map_app. apply NoDup_app. repeat split.
    + exact Hnd.
    + intros x Hx Hx'. apply list_elem_of_In in Hx'. cbn in Hx'.
      destruct Hx' as [<-|[]]. contradiction.
    + apply NoDup_singleton.
Qed.


End ShoppingList.

(** ** The auto-populate actions *)

(** A [filter] with a boolean test, read as the stdpp filter of the
    property the test decides. *)
Lemma List_filter_Prop {A} (p : A -> bool) (P : A -> Prop)
    `{forall x, Decision (P x)} (l : list A) :
  (forall x, p x = true <-> P x) -> List.filter p l = filter P l.
Proof.
  intros Hp. induction l as [|a l IH]; [reflexivity|].
  simpl. rewrite filter_cons, IH.
  destruct (decide (P a)) as [Ha|Ha], (p a) eqn:Hpa; try reflexivity.
  - apply Hp in Ha. congruence.
  - apply Hp in Hpa. contradiction.
Qed.

Section AutoPopulate.
Context `{Host}.

(** The call [autoAddLowStockToShoppingList] makes for a selected item. *)
Lemma lowStockItems_filter (now : Z) (s : Store) :
  lowStockItems now s
  = filter
      (fun item =>
         PrimFloat.ltb (PantryItem.quantity item) 2%float = true
         /\ getExpirationStatus now (PantryItem.expirationDate item)
            <> ExpirationStatus.expired)
      (items s).
Proof.
  apply List_filter_Prop. intros item. unfold isLowStock, defaultThreshold.
  rewrite andb_true_iff, negb_true_iff, bool_decide_eq_false. reflexivity.
Qed.

Lemma expiredItems_filter (now : Z) (s : Store) :
  expiredItems now s
  = filter
      (fun item =>
         getExpirationStatus now (PantryItem.expirationDate item)
         = ExpirationStatus.expired)
      (items s).
Proof.
  apply List_filter_Prop. intros item. apply bool_decide_eq_true.
Qed.

Lemma items_addToShoppingList now name category quantity unit source s :
  items (addToShoppingList now name category quantity unit source s) = items s.
Proof. unfold addToShoppingList. destruct (List.find _ _); reflexivity. Qed.

Lemma items_fold_addToShoppingList (now : Z) (quantity : float) (source : Source.t)
    (l : list PantryItem.t) (s : Store) :
  items
    (fold_left
       (fun s item =>
          addToShoppingList now (PantryItem.name item) (PantryItem.category item)
            quantity (PantryItem.unit item) source s)
       l s)
  = items s.
Proof.
  revert s. induction l as [|a l IH]; intros s; simpl; [reflexivity|].
  rewrite IH. apply items_addToShoppingList.
Qed.

(** C3.  [autoAddLowStockToShoppingList] selects, in pantry order, exactly
    the pantry items with [quantity < 2] whose classification is not
    expired; an item whose expiration day is past is never selected,
    whatever its quantity.  It calls [addToShoppingList] once per selected
    item, with that item's name, category and unit, quantity 2 and source
    'low-stock', and returns how many items it selected.  That number can
    exceed the number of entries the shopping list gains: two selected
    items of one name end up in a single entry. *)
Theorem autoAddLowStockToShoppingList_spec (now : Z) (s : Store) :
  let selected :=
    filter
      (fun item =>
         PrimFloat.ltb (PantryItem.quantity item) 2%float = true
         /\ getExpirationStatus now (PantryItem.expirationDate item)
            <> ExpirationStatus.expired)
      (items s) in
  autoAddLowStockToShoppingList now s
  = (length selected,
     fold_left
       (fun s item =>
          addToShoppingList now (PantryItem.name item) (PantryItem.category item)
            2%float (PantryItem.unit item) Source.low_stock s)
       selected s)
  /\ (forall item d,
        daysFromToday now (PantryItem.expirationDate item) = Some d ->
        d < 0 -> item ∉ selected)
  /\ (exists (now0 : Z) (s0 : Store),
        let r := @autoAddLowStockToShoppingList Sample.utc now0 s0 in
        shoppingList s0 = []
        /\ fst r = 2%nat
        /\ length (shoppingList (snd r)) = 1%nat).
Proof.
  intros selected. split; [|split].
  - unfold autoAddLowStockToShoppingList. rewrite lowStockItems_filter.
    reflexivity.
  - intros item d Hd Hneg Hin.
    apply list_elem_of_filter in Hin as [[_ Hne] _]. apply Hne.
    now apply (getExpirationStatus_by_days now _ d Hd).
  - exists 1705338000000.
    exists {| items :=
                [ PantryItem.mk "1-a" "Milk" Category.Dairy 1%float Unit.liters
                    "2024-01-17" "2024-01-10T08:00:00.000Z" None;
                  PantryItem.mk "2-b" "milk" Category.Dairy 0.5%float Unit.bottles
                    "2024-01-20" "2024-01-11T08:00:00.000Z" None ];
              shoppingList := [];
              randomDraws := 0 |}.
    vm_compute. repeat split; reflexivity.
Qed.

(** C4.  [autoAddExpiredToShoppingList] selects, in pantry order, exactly
    the pantry items classified expired, calls [addToShoppingList] once per
    selected item, with that item's name, category and unit, quantity 1 and
    source 'expired', and returns how many items it selected.  With a
    single pantry item whose expiration day is past and an empty shopping
    list, it returns 1 and the list becomes one unchecked entry of quantity
    1 and source 'expired'. *)
Theorem autoAddExpiredToShoppingList_spec (now : Z) (s : Store) :
  let selected :=
    filter
      (fun item =>
         getExpirationStatus now (PantryItem.expirationDate item)
         = ExpirationStatus.expired)
      (items s) in
  autoAddExpiredToShoppingList now s
  = (length selected,
     fold_left
       (fun s item =>
          addToShoppingList now (PantryItem.name item) (PantryItem.category item)
            1%float (PantryItem.unit item) Source.expired s)
       selected s)
  /\ (forall item d,
        items s = [item] ->
        shoppingList s = [] ->
        daysFromToday now (PantryItem.expirationDate item) = Some d ->
        d < 0 ->
        autoAddExpiredToShoppingList now s
        = (1%nat,
           {| items := [item];
              shoppingList :=
                [ {| ShoppingItem.id := generateId now (randomDraws s);
                     ShoppingItem.name := PantryItem.name item;
                     ShoppingItem.category := PantryItem.category item;
                     ShoppingItem.quantity := 1%float;
                     ShoppingItem.unit := PantryItem.unit item;
                     ShoppingItem.checked := false;
                     ShoppingItem.source := Source.expired;
                     ShoppingItem.createdAt := toISOString now |} ];
              randomDraws := S (randomDraws s) |})).
Proof.
  intros selected. split.
  - unfold autoAddExpiredToShoppingList. rewrite expiredItems_filter.
    reflexivity.
  - intros item d Hitems Hlist Hd Hneg.
    unfold autoAddExpiredToShoppingList, expiredItems. rewrite Hitems.
    cbn [List.filter].
    rewrite (proj2 (proj1 (getExpirationStatus_by_days now _ d Hd)) Hneg).
    rewrite bool_decide_eq_true_2 by reflexivity.
    cbn [fold_left length]. f_equal.
    unfold addToShoppingList. rewrite Hlist, Hitems. reflexivity.
Qed.

End AutoPopulate.

(** ** The pantry collection: update and removal *)

Lemma filter_id_absent {A} (key : A -> string) (id : string) (l : list A) :
  Forall (fun x => key x <> id) l ->
  List.filter (fun x => negb (String.eqb (key x) id)) l = l.
Proof.
  intros Hall. apply filter_all_match. eapply Forall_impl; [exact Hall|].
  intros x Hx. apply negb_true_iff, String.eqb_neq, Hx.
Qed.

Lemma map_id_absent {A} (key : A -> string) (id : string) (f : A -> A) (l : list A) :
  Forall (fun x => key x <> id) l ->
  map (fun x => if String.eqb (key x) id then f x else x) l = l.
Proof.
  intros Hall.
  apply (map_no_match (fun x => String.eqb (key x) id) f).
  eapply Forall_impl; [exact Hall|]. intros x Hx. apply String.eqb_neq, Hx.
Qed.

Lemma Store_eta (s : Store) :
  {| items := items s; shoppingList := shoppingList s;
     randomDraws := randomDraws s |} = s.
Proof. now destruct s. Qed.

(** C6.  [updateItem(id, data)] keeps the length and the order of the
    pantry collection.  An item whose id is [id] keeps its id and
    [createdAt], takes each field that [data] supplies and keeps each field
    it does not, and has [updatedAt] set to the current timestamp; every
    other item is left as it was.  The shopping list is untouched.  When no
    item has the id, the whole state is unchanged. *)
Theorem updateItem_spec `{Host} (now : Z) (id : string) (data : PartialFormData.t)
    (s : Store) :
  length (items (updateItem now id data s)) = length (items s)
  /\ shoppingList (updateItem now id data s) = shoppingList s
  /\ randomDraws (updateItem now id data s) = randomDraws s
  /\ (forall (i : nat) (item : PantryItem.t),
        items s !! i = Some item ->
        exists item',
          items (updateItem now id data s) !! i = Some item'
          /\ (PantryItem.id item <> id -> item' = item)
          /\ (PantryItem.id item = id ->
                PantryItem.id item' = PantryItem.id item
                /\ PantryItem.createdAt item' = PantryItem.createdAt item
                /\ PantryItem.updatedAt item' = Some (toISOString now)
                /\ fieldAfter (PantryItem.name item) (PartialFormData.name data)
                     (PantryItem.name item')
                /\ fieldAfter (PantryItem.category item)
                     (PartialFormData.category data) (PantryItem.category item')
                /\ fieldAfter (PantryItem.quantity item)
                     (PartialFormData.quantity data) (PantryItem.quantity item')
                /\ fieldAfter (PantryItem.unit item) (PartialFormData.unit data)
                     (PantryItem.unit item')
                /\ fieldAfter (PantryItem.expirationDate item)
                     (PartialFormData.expirationDate data)
                     (PantryItem.expirationDate item')))
  /\ (Forall (fun item => PantryItem.id item <> id) (items s) ->
      updateItem now id data s = s).
Proof.
  repeat split.
  - apply length_map.
  - intros i item Hi. unfold updateItem. cbn [items].
    eexists. split.
    + apply lookup_map, Hi.
    + split.
      * intros Hne. now rewrite (proj2 (String.eqb_neq _ _) Hne).
      * intros Heq. rewrite (proj2 (String.eqb_eq _ _) Heq).
        destruct data as [n c q u e]; cbn.
        repeat split; (destruct n, c, q, u, e; reflexivity).
  - intros Hall. unfold updateItem.
    rewrite (map_id_absent PantryItem.id) by exact Hall. apply Store_eta.
Qed.

(** C7.  [removeItem], [removeShoppingItem] and [toggleShoppingItem] with
    an id that no element of the collection they work on has: the state
    that comes out is the state that went in. *)
Theorem unknown_id_is_noop (id : string) (s : Store) :
  (Forall (fun item => PantryItem.id item <> id) (items s) ->
   removeItem id s = s)
  /\ (Forall (fun item => ShoppingItem.id item <> id) (shoppingList s) ->
      removeShoppingItem id s = s /\ toggleShoppingItem id s = s).
Proof.
  split; [|split].
  - intros Hall. unfold removeItem.
    rewrite (filter_id_absent PantryItem.id) by exact Hall. apply Store_eta.
  - unfold removeShoppingItem.
    rewrite (filter_id_absent ShoppingItem.id) by assumption. apply Store_eta.
  - unfold toggleShoppingItem.
    rewrite (map_id_absent ShoppingItem.id) by assumption. apply Store_eta.
Qed.

(** ** Checking entries off and clearing them *)

Lemma clearCheckedItems_filter (s : Store) :
  shoppingList (clearCheckedItems s)
  = filter (fun item => ShoppingItem.checked item = false) (shoppingList s).
Proof.
  apply List_filter_Prop. intros item. apply negb_true_iff.
Qed.

(** Among the sublists of [l] whose elements all satisfy [P], the filter is
    the largest. *)
Lemma sublist_filter_greatest {A} (P : A -> Prop) `{forall x, Decision (P x)}
    (k l : list A) :
  k `sublist_of` l -> Forall P k -> k `sublist_of` filter P l.
Proof.
  induction 1 as [|x k l _ IH|x k l _ IH]; intros Hk.
  - constructor.
  - apply Forall_cons in Hk as [Hx Hk].
    rewrite filter_cons_True by exact Hx. constructor. now apply IH.
  - rewrite filter_cons. destruct (decide (P x)); [constructor|]; now apply IH.
Qed.

(** Toggling the ids of [ids], each once, flips the entries whose id is in
    [ids] and leaves the others. *)
Lemma toggle_all (ids : list string) (s : Store) :
  NoDup ids ->
  shoppingList (fold_left (fun s id => toggleShoppingItem id s) ids s)
  = map (fun item =>
           if bool_decide (ShoppingItem.id item ∈ ids) then flipChecked item
           else item)
        (shoppingList s).
Proof.
  revert s. induction ids as [|id ids IH]; intros s Hnd.
  - simpl. symmetry. apply map_id.
  - apply NoDup_cons in Hnd as [Hnotin Hnd]. cbn [fold_left].
    rewrite (IH _ Hnd). cbn [toggleShoppingItem shoppingList].
    rewrite map_map. apply map_ext. intros item.
    destruct (String.eqb_spec (ShoppingItem.id item) id) as [Heq|Hne].
    + cbn [flipChecked ShoppingItem.id]. rewrite Heq.
      rewrite (bool_decide_eq_false_2 (id ∈ ids)) by exact Hnotin.
      rewrite bool_decide_eq_true_2 by (left). reflexivity.
    + destruct (bool_decide_reflect (ShoppingItem.id item ∈ ids)) as [Hin|Hout].
      * rewrite bool_decide_eq_true_2 by (now right). reflexivity.
      * rewrite bool_decide_eq_false_2; [reflexivity|].
        intros [?|?]%elem_of_cons; contradiction.
Qed.

(** C8.  [clearCheckedItems] leaves the pantry alone and turns the
    shopping list into the subsequence of its unchecked entries: a
    sublist of the old list, in the old order, made of unchecked entries
    only, and containing every sublist of unchecked entries.  On a list of
    unchecked entries, toggling some ids and then clearing removes the
    entries with those ids and keeps the others, unchanged and in order. *)
Theorem clearCheckedItems_spec (s : Store) :
  items (clearCheckedItems s) = items s
  /\ shoppingList (clearCheckedItems s) `sublist_of` shoppingList s
  /\ Forall (fun item => ShoppingItem.checked item = false)
            (shoppingList (clearCheckedItems s))
  /\ (forall k,
        k `sublist_of` shoppingList s ->
        Forall (fun item => ShoppingItem.checked item = false) k ->
        k `sublist_of` shoppingList (clearCheckedItems s))
  /\ (forall ids : list string,
        NoDup ids ->
        Forall (fun item => ShoppingItem.checked item = false) (shoppingList s) ->
        shoppingList
          (clearCheckedItems
             (fold_left (fun s id => toggleShoppingItem id s) ids s))
        = filter (fun item => ShoppingItem.id item ∉ ids) (shoppingList s)).
Proof.
  split; [reflexivity|]. rewrite clearCheckedItems_filter.
  split; [apply sublist_filter|].
  split; [apply Forall_forall; intros x Hx; now apply list_elem_of_filter in Hx|].
  split; [intros k; apply sublist_filter_greatest|].
  intros ids Hnd Hall. rewrite clearCheckedItems_filter, toggle_all by exact Hnd.
  induction Hall as [|item l Hitem _ IH]; [reflexivity|].
  cbn [map]. rewrite (filter_cons (fun item => ShoppingItem.id item ∉ ids)), <- IH.
  destruct (bool_decide_reflect (ShoppingItem.id item ∈ ids)) as [Hin|Hout].
  - rewrite filter_cons_False by (cbn; rewrite Hitem; discriminate).
    destruct (decide (ShoppingItem.id item ∉ ids)); [contradiction|reflexivity].
  - rewrite filter_cons_True by exact Hitem.
    destruct (decide (ShoppingItem.id item ∉ ids)); [reflexivity|contradiction].
Qed.

(** ** The two collections are changed apart *)

(** C10.  The pantry actions [addItem], [updateItem] and [removeItem]
    leave [shoppingList] as it was; the shopping-list actions
    [addToShoppingList], [toggleShoppingItem], [removeShoppingItem],
    [clearCheckedItems] and [clearShoppingList] and the two auto-populate
    actions leave [items] as it was. *)
Theorem collections_changed_apart `{Host} (now : Z) (s : Store) :
  (forall data, shoppingList (addItem now data s) = shoppingList s)
  /\ (forall id data, shoppingList (updateItem now id data s) = shoppingList s)
  /\ (forall id, shoppingList (removeItem id s) = shoppingList s)
  /\ (forall name category quantity unit source,
        items (addToShoppingList now name category quantity unit source s)
        = items s)
  /\ (forall id, items (toggleShoppingItem id s) = items s)
  /\ (forall id, items (removeShoppingItem id s) = items s)
  /\ items (clearCheckedItems s) = items s
  /\ items (clearShoppingList s) = items s
  /\ items (snd (autoAddLowStockToShoppingList now s)) = items s
  /\ items (snd (autoAddExpiredToShoppingList now s)) = items s.
Proof.
  repeat split; try reflexivity.
  - intros. apply items_addToShoppingList.
  - apply items_fold_addToShoppingList.
  - apply items_fold_addToShoppingList.
Qed.

(** ** Sorting *)

Section StableSort.
Context {T : Type}.

Lemma sort_insert_Permutation (cmp : T -> T -> option Z) (x : T) (l : list T) :
  Permutation (sort_insert cmp x l) (x :: l).
Proof.
  induction l as [|y l IH]; simpl; [reflexivity|].
  destruct (SortCompare cmp x y <=? 0); [reflexivity|].
  rewrite IH. apply perm_swap.
Qed.

Lemma stable_sort_Permutation (cmp : T -> T -> option Z) (l : list T) :
  Permutation (stable_sort cmp l) l.
Proof.
  induction l as [|x l IH]; simpl; [reflexivity|].
  rewrite sort_insert_Permutation. now constructor.
Qed.

(** The result depends on the comparator only through the values it takes
    on the elements of the array. *)
Lemma sort_insert_ext (cmp1 cmp2 : T -> T -> option Z) (x : T) (l : list T) :
  (forall y, In y l -> SortCompare cmp1 x y = SortCompare cmp2 x y) ->
  sort_insert cmp1 x l = sort_insert cmp2 x l.
Proof.
  induction l as [|y l IH]; intros Hagree; simpl; [reflexivity|].
  rewrite (Hagree y) by now left.
  destruct (SortCompare cmp2 x y <=? 0); [reflexivity|].
  f_equal. apply IH. intros z Hz. apply Hagree. now right.
Qed.

Lemma stable_sort_ext (cmp1 cmp2 : T -> T -> option Z) (l : list T) :
  (forall x y, In x l -> In y l -> SortCompare cmp1 x y = SortCompare cmp2 x y) ->
  stable_sort cmp1 l = stable_sort cmp2 l.
Proof.
  induction l as [|x l IH]; intros Hagree; simpl; [reflexivity|].
  rewrite IH by (intros; apply Hagree; now right).
  apply sort_insert_ext. intros y Hy. apply Hagree; [now left|].
  right. eapply Permutation_in; [apply stable_sort_Permutation|exact Hy].
Qed.

(** From here on the comparator is the difference of an integer key, as it
    is for valid dates. *)
Variable key : T -> Z.
Variable cmp : T -> T -> option Z.
Hypothesis cmp_key : forall x y, SortCompare cmp x y = key x - key y.

Local Abbreviation le_key := (le_by key).

Lemma sort_insert_HdRel (a x : T) (l : list T) :
  le_key a x -> HdRel le_key a l -> HdRel le_key a (sort_insert cmp x l).
Proof.
  intros Hax Hal. destruct l as [|y l]; simpl; [now constructor|].
  destruct (SortCompare cmp x y <=? 0); constructor; [exact Hax|].
  now inversion Hal.
Qed.

Lemma sort_insert_Sorted (x : T) (l : list T) :
  Sorted le_key l -> Sorted le_key (sort_insert cmp x l).
Proof.
  induction 1 as [|y l Hl IH Hhd]; simpl; [repeat constructor|].
  destruct (Z.leb_spec (SortCompare cmp x y) 0) as [Hle|Hgt].
  - constructor; [now constructor|]. constructor.
    unfold le_key. rewrite cmp_key in Hle. lia.
  - constructor; [exact IH|]. apply sort_insert_HdRel; [|exact Hhd].
    unfold le_key. rewrite cmp_key in Hgt. lia.
Qed.

Lemma stable_sort_Sorted (l : list T) : Sorted le_key (stable_sort cmp l).
Proof.
  induction l as [|x l IH]; simpl; [constructor|]. now apply sort_insert_Sorted.
Qed.

(** Stability: the elements with a given key come out in the order they
    came in. *)
Lemma sort_insert_stable (k : Z) (x : T) (l : list T) :
  filter (fun y => key y = k) (sort_insert cmp x l)
  = filter (fun y => key y = k) (x :: l).
Proof.
  induction l as [|y l IH]; simpl; [reflexivity|].
  destruct (Z.leb_spec (SortCompare cmp x y) 0) as [Hle|Hgt]; [reflexivity|].
  rewrite cmp_key in Hgt.
  rewrite (filter_cons _ y), IH, !filter_cons.
  destruct (decide (key y = k)), (decide (key x = k)); try reflexivity. lia.
Qed.

Lemma stable_sort_stable (k : Z) (l : list T) :
  filter (fun y => key y = k) (stable_sort cmp l) = filter (fun y => key y = k) l.
Proof.
  induction l as [|x l IH]; simpl; [reflexivity|].
  rewrite sort_insert_stable, !filter_cons, IH. reflexivity.
Qed.

Lemma Sorted_head_least (x : T) (l : list T) (y : T) :
  Sorted le_key (x :: l) -> In y (x :: l) -> key x <= key y.
Proof.
  intros Hs Hy. apply Sorted_StronglySorted in Hs.
  - apply StronglySorted_inv in Hs as [_ Hall]. destruct Hy as [->|Hy]; [lia|].
    exact (proj1 (List.Forall_forall _ _) Hall y Hy).
  - intros a b c. unfold le_key. lia.
Qed.

(** A sorted arrangement that keeps, key by key, the order of the original
    is determined by the original: there is one stable sorted arrangement. *)
Lemma stable_sort_unique (l1 l2 : list T) :
  Sorted le_key l1 -> Sorted le_key l2 ->
  (forall k, filter (fun y => key y = k) l1 = filter (fun y => key y = k) l2) ->
  l1 = l2.
Proof.
  revert l2. induction l1 as [|x l1 IH]; intros l2 Hs1 Hs2 Hf.
  - destruct l2 as [|y l2]; [reflexivity|].
    specialize (Hf (key y)). rewrite filter_cons_True in Hf by reflexivity.
    discriminate.
  - destruct l2 as [|y l2].
    { specialize (Hf (key x)). rewrite filter_cons_True in Hf by reflexivity.
      discriminate. }
    assert (Hxy : key x = key y).
    { assert (In x (y :: l2)).
      { apply list_elem_of_In.
        apply (list_elem_of_filter (fun z => key z = key x) (y :: l2) x).
        rewrite <- Hf, filter_cons_True by reflexivity. left. }
      assert (In y (x :: l1)).
      { apply list_elem_of_In.
        apply (list_elem_of_filter (fun z => key z = key y) (x :: l1) y).
        rewrite Hf, filter_cons_True by reflexivity. left. }
      pose proof (Sorted_head_least x l1 y Hs1 ltac:(assumption)).
      pose proof (Sorted_head_least y l2 x Hs2 ltac:(assumption)). lia. }
    pose proof (Hf (key x)) as Hhead.
    rewrite filter_cons_True in Hhead by reflexivity.
    rewrite filter_cons_True in Hhead by (symmetry; exact Hxy).
    injection Hhead as <- _. f_equal.
    apply IH; [now inversion Hs1|now inversion Hs2|].
    intros k. specialize (Hf k). rewrite !filter_cons in Hf.
    destruct (decide (key x = k)); [now injection Hf|exact Hf].
Qed.

Lemma stable_sort_sorted_id (l : list T) : Sorted le_key l -> stable_sort cmp l = l.
Proof.
  intros Hs. apply stable_sort_unique.
  - apply stable_sort_Sorted.
  - exact Hs.
  - intros k. apply stable_sort_stable.
Qed.

End StableSort.

Section SortByExpiration.
Context `{Host} {T : Type} `{HasExpirationDate T}.

Abbreviation valid := (fun x : T => is_Some (expirationTime x)).

(** On valid dates the comparator is the difference of the parsed dates. *)
Lemma byExpirationDate_valid (x y : T) :
  valid x -> valid y -> SortCompare byExpirationDate x y = dateKey x - dateKey y.
Proof.
  unfold SortCompare, byExpirationDate, dateKey, expirationTime.
  intros [tx ->] [ty ->]. reflexivity.
Qed.

Lemma stable_sort_byExpirationDate (l : list T) :
  Forall valid l ->
  stable_sort byExpirationDate l
  = stable_sort (fun a b => Some (dateKey a - dateKey b)) l.
Proof.
  intros Hv. apply stable_sort_ext. intros x y Hx Hy.
  rewrite byExpirationDate_valid;
    [reflexivity | | ];
    eapply (proj1 (Forall_forall _ _) Hv), list_elem_of_In; assumption.
Qed.

Lemma notLater_le_by (a b : T) :
  valid a -> valid b -> (notLater a b <-> le_by dateKey a b).
Proof.
  unfold notLater, le_by, dateKey. intros [ta ->] [tb ->]. reflexivity.
Qed.

Lemma Sorted_notLater (l : list T) :
  Forall valid l -> (Sorted notLater l <-> Sorted (le_by dateKey) l).
Proof.
  induction 1 as [|x l Hx Hl IH]; [split; constructor|].
  split; intros Hs; apply Sorted_inv in Hs as [Hs Hhd];
    (constructor; [now apply IH|]);
    destruct Hhd as [|y l' Hxy]; constructor;
    apply Forall_cons in Hl as [Hy _];
    now apply (notLater_le_by x y Hx Hy).
Qed.

Lemma filter_expirationTime (t : Z) (l : list T) :
  Forall valid l ->
  filter (fun x => expirationTime x = Some t) l
  = filter (fun x => dateKey x = t) l.
Proof.
  induction 1 as [|x l [tx Hx] _ IH]; [reflexivity|].
  rewrite !filter_cons, IH. unfold dateKey. rewrite Hx. simpl.
  destruct (decide (Some tx = Some t)), (decide (tx = t));
    congruence.
Qed.

(** What the sort computes on an array of valid dates. *)
Lemma sorted_by_expiration (xs : list T) :
  Forall valid xs ->
  let sorted := stable_sort byExpirationDate xs in
  Forall valid sorted
  /\ Permutation sorted xs
  /\ Sorted notLater sorted
  /\ (forall t,
        filter (fun x => expirationTime x = Some t) sorted
        = filter (fun x => expirationTime x = Some t) xs)
  /\ (Sorted notLater xs -> sorted = xs)
  /\ stable_sort byExpirationDate sorted = sorted.
Proof.
  intros Hv sorted.
  assert (Hperm : Permutation sorted xs) by apply stable_sort_Permutation.
  assert (Hvs : Forall valid sorted) by (now rewrite Hperm).
  assert (Hkey : forall x y : T,
            SortCompare (fun a b => Some (dateKey a - dateKey b)) x y
            = dateKey x - dateKey y) by reflexivity.
  assert (Hsorted : Sorted (le_by dateKey) sorted).
  { unfold sorted. rewrite stable_sort_byExpirationDate by exact Hv.
    now apply stable_sort_Sorted. }
  repeat split; try assumption.
  - now apply Sorted_notLater.
  - intros t. rewrite !filter_expirationTime by assumption.
    unfold sorted. rewrite stable_sort_byExpirationDate by exact Hv.
    now apply stable_sort_stable.
  - intros Hs. unfold sorted. rewrite stable_sort_byExpirationDate by exact Hv.
    apply (stable_sort_sorted_id dateKey); [exact Hkey|].
    now apply Sorted_notLater.
  - rewrite stable_sort_byExpirationDate by exact Hvs.
    now apply (stable_sort_sorted_id dateKey).
Qed.

(** Any arrangement of the array that is in ascending order of date and
    keeps the items of each date in their original order is the one
    [stable_sort] computes: a conforming [sort] has no other choice. *)
Lemma sorted_by_expiration_unique (xs l : list T) :
  Forall valid xs ->
  Permutation l xs ->
  Sorted notLater l ->
  (forall t,
      filter (fun x => expirationTime x = Some t) l
      = filter (fun x => expirationTime x = Some t) xs) ->
  l = stable_sort byExpirationDate xs.
Proof.
  intros Hv Hperm Hs Hst.
  assert (Hvl : Forall valid l) by (now rewrite Hperm).
  destruct (sorted_by_expiration xs Hv) as (Hvs & _ & Hs' & Hst' & _).
  apply (stable_sort_unique dateKey).
  - now apply Sorted_notLater.
  - now apply Sorted_notLater.
  - intros k. rewrite <- !filter_expirationTime by assumption.
    now rewrite Hst, Hst'.
Qed.

(** An array of two or more elements in ascending order of parsed date
    holds dates that parse, and no other. *)
Lemma Sorted_notLater_valid (l : list T) :
  Sorted notLater l -> (2 <= length l)%nat -> Forall valid l.
Proof.
  induction 1 as [|a l Hs IH Hhd]; [constructor|].
  intros Hlen. destruct Hhd as [|b l' Hab]; [simpl in Hlen; lia|].
  assert (Hv : valid a /\ valid b).
  { unfold notLater in Hab.
    destruct (expirationTime a), (expirationTime b); try contradiction.
    split; eexists; reflexivity. }
  destruct Hv as [Hva Hvb]. constructor; [exact Hva|].
  destruct l' as [|c l'']; [repeat constructor; exact Hvb|].
  apply IH. simpl. lia.
Qed.

(** On an array of valid dates the comparator is the difference of a key,
    so every conforming engine returns the stable sorted arrangement. *)
Lemma byExpirationDate_keyed (xs : list T) :
  Forall valid xs -> keyed byExpirationDate xs.
Proof.
  intros Hv. exists dateKey. intros x y Hx Hy.
  apply byExpirationDate_valid;
    eapply (proj1 (Forall_forall _ _) Hv), list_elem_of_In; assumption.
Qed.

Context {E : Engine}.

Lemma engine_sort_valid (xs : list T) :
  conforms E -> Forall valid xs ->
  Array_prototype_sort T byExpirationDate xs = stable_sort byExpirationDate xs.
Proof. intros Hc Hv. now apply Hc, byExpirationDate_keyed. Qed.

(** What the call does to the heap: the copy is new, the copy is what the
    engine makes of the elements, nothing else changes. *)
Lemma sortByExpirationDate_heap (items : loc) (h : gmap loc (list T)) (xs : list T) :
  h !! items = Some xs ->
  let result := fresh (dom h) in
  sortByExpirationDate items h
  = Some (result, <[result := Array_prototype_sort T byExpirationDate xs]> h)
  /\ h !! result = None
  /\ result <> items.
Proof.
  intros Hitems result.
  assert (Hfresh : h !! result = None)
    by (apply not_elem_of_dom, is_fresh).
  repeat split; [|exact Hfresh|congruence].
  unfold sortByExpirationDate, Array_spread, Array_sort. rewrite Hitems.
  fold result. rewrite lookup_insert_eq, insert_insert_eq. reflexivity.
Qed.

End SortByExpiration.

Lemma insertionEngine_conforms : conforms insertionEngine.
Proof.
  intros T comparefn l. split; [apply stable_sort_Permutation|reflexivity].
Qed.

(** C5, amended.  Whatever the dates, [sortByExpirationDate] returns a
    newly allocated array holding a rearrangement of the input, and leaves
    the array it was given, and every other array, as they were.  When all
    the dates parse, the returned sequence is in ascending order of parsed
    date, with the items of equal date in their original relative order,
    and sorting is idempotent: an already sorted input comes back as the
    same sequence, and so does the result when sorted again.  The store's
    [getSortedByExpiration] is this sort applied to the array held in
    [items], which it therefore never reorders. *)
Theorem sortByExpirationDate_spec `{Host} {E : Engine} :
  conforms E ->
  (forall (T : Type) `(HasExpirationDate T)
          (items : loc) (h : gmap loc (list T)) (xs : list T),
      h !! items = Some xs ->
      exists (result : loc) (sorted : list T),
        sortByExpirationDate items h = Some (result, <[result := sorted]> h)
        /\ h !! result = None
        /\ (<[result := sorted]> h) !! items = Some xs
        /\ Permutation sorted xs
        /\ (Forall (fun x => is_Some (expirationTime x)) xs ->
            Sorted notLater sorted
            /\ (forall t,
                  filter (fun x => expirationTime x = Some t) sorted
                  = filter (fun x => expirationTime x = Some t) xs)
            /\ (Sorted notLater xs -> sorted = xs)
            /\ (exists result2,
                  sortByExpirationDate result (<[result := sorted]> h)
                  = Some (result2,
                          <[result2 := sorted]> (<[result := sorted]> h)))))
  /\ (forall (s : Store) (itemsRef : loc) (h : gmap loc (list PantryItem.t)),
        h !! itemsRef = Some (items s) ->
        getSortedByExpiration itemsRef h = sortByExpirationDate itemsRef h
        /\ exists result sorted,
             getSortedByExpiration itemsRef h = Some (result, <[result := sorted]> h)
             /\ (<[result := sorted]> h) !! itemsRef = Some (items s)
             /\ Permutation sorted (items s)).
Proof.
  intros Hc. split.
  - intros T HT items h xs Hitems.
    destruct (sortByExpirationDate_heap items h xs Hitems) as (Hrun & Hnew & Hne).
    exists (fresh (dom h)), (Array_prototype_sort T byExpirationDate xs).
    split; [exact Hrun|]. split; [exact Hnew|].
    split; [now rewrite lookup_insert_ne|].
    split; [apply Hc|].
    intros Hv. rewrite (engine_sort_valid xs Hc Hv).
    destruct (sorted_by_expiration xs Hv) as (Hvs & Hperm & Hs & Hst & Hid & Hagain).
    repeat split; try assumption.
    eexists.
    destruct (sortByExpirationDate_heap (fresh (dom h))
                (<[fresh (dom h) := stable_sort byExpirationDate xs]> h)
                (stable_sort byExpirationDate xs)) as (Hrun2 & _ & _).
    { apply lookup_insert_eq. }
    rewrite Hrun2, (engine_sort_valid _ Hc Hvs), Hagain. reflexivity.
  - intros s itemsRef h Hitems. split; [reflexivity|].
    destruct (sortByExpirationDate_heap itemsRef h (items s) Hitems)
      as (Hrun & Hnew & Hne).
    exists (fresh (dom h)), (Array_prototype_sort _ byExpirationDate (items s)).
    split; [exact Hrun|]. split; [now rewrite lookup_insert_ne|apply Hc].
Qed.

(** * The statements at work on the sample data *)

(** The description three days before the date, at UTC. *)
Lemma getExpirationDescription_by_days_witness :
  @daysFromToday Sample.utc Sample.noon "2024-01-18" = Some 3
  /\ @getExpirationDescription Sample.utc Sample.noon "2024-01-18"
     = ("Expires in " ++ pretty 3 ++ " days")%string.
Proof.
  split; [vm_compute; reflexivity|].
  destruct (@getExpirationDescription_by_days Sample.utc Sample.noon
              "2024-01-18" 3 ltac:(vm_compute; reflexivity))
    as (_ & _ & _ & _ & _ & Hin & _).
  apply Hin. lia.
Defined.



(** C3 at work: the bread, one piece left but past its date, is passed over;
    only the milk is selected. *)
Lemma autoAddLowStockToShoppingList_spec_witness :
  @daysFromToday Sample.utc Sample.noon (PantryItem.expirationDate Sample.bread) = Some (-1)
  /\ fst (@autoAddLowStockToShoppingList Sample.utc Sample.noon Sample.store) = 1%nat
  /\ Sample.bread
     ∉ filter
         (fun item =>
            PrimFloat.ltb (PantryItem.quantity item) 2%float = true
            /\ @getExpirationStatus Sample.utc Sample.noon (PantryItem.expirationDate item)
               <> ExpirationStatus.expired)
         (items Sample.store).
Proof.
  destruct (@autoAddLowStockToShoppingList_spec Sample.utc Sample.noon Sample.store)
    as (Hrun & Hpast & _).
  split; [vm_compute; reflexivity|]. split.
  - rewrite Hrun. vm_compute. reflexivity.
  - apply (Hpast Sample.bread (-1)); [vm_compute; reflexivity | lia].
Defined.

(** C4 at work: yesterday's bread is put on the empty list. *)
Lemma autoAddExpiredToShoppingList_spec_witness :
  @autoAddExpiredToShoppingList Sample.utc Sample.noon Sample.staleStore
  = (1%nat,
     {| items := [Sample.bread];
        shoppingList :=
          [ ShoppingItem.mk "1705338000000-0000000" "Bread" Category.Bakery 1%float
              Unit.pieces false Source.expired "2024-01-15T17:00:00.000Z" ];
        randomDraws := 1 |}).
Proof.
  destruct (@autoAddExpiredToShoppingList_spec Sample.utc Sample.noon Sample.staleStore)
    as (_ & Hone).
  rewrite (Hone Sample.bread (-1) eq_refl eq_refl);
    [reflexivity | vm_compute; reflexivity | lia].
Defined.

(** C5 at work: the four pantry items, two dates; the array at address 1
    stays as it is and the sorted copy keeps milk before rice and bread
    before yogurt. *)
Lemma sortByExpirationDate_spec_witness :
  conforms insertionEngine
  /\ exists (result : loc) (sorted : list PantryItem.t),
       @sortByExpirationDate Sample.utc insertionEngine _ _ 1%positive Sample.heap
       = Some (result, <[result := sorted]> Sample.heap)
       /\ (<[result := sorted]> Sample.heap) !! 1%positive
          = Some (items Sample.store)
       /\ Permutation sorted (items Sample.store)
       /\ Sorted (@notLater Sample.utc _ _) sorted
       /\ filter (fun x => @expirationTime Sample.utc _ _ x = Some 1705449600000)
                 sorted
          = [Sample.milk; Sample.rice].
Proof.
  split; [exact insertionEngine_conforms|].
  destruct (@sortByExpirationDate_spec Sample.utc insertionEngine
              insertionEngine_conforms) as (Hsort & _).
  destruct (Hsort PantryItem.t _ 1%positive Sample.heap (items Sample.store))
    as (result & sorted & Hrun & _ & Hkept & Hperm & Hvalid).
  - reflexivity.
  - destruct Hvalid as (Hsorted & Hstable & _).
    + repeat (constructor; [eexists; reflexivity|]). constructor.
    + exists result, sorted. repeat split; try assumption.
      rewrite Hstable. vm_compute. reflexivity.
Defined.

(** C5, counterexample.  A pantry of three items
    dated "2024-01-05", "2024-13-45" and "2024-01-01": the second date has
    the shape the form accepts and does not parse.  Every comparison with
    it is NaN, read as "equal", and on the engine that sorts by insertion
    the array comes back in the order it had: the item of 5 January before
    the item of 1 January.  Whatever the engine, the result is a
    rearrangement of the three items, and none of these is in ascending
    order of parsed date. *)
Lemma sortByExpirationDate_unparsable_date :
  @sortByExpirationDate Sample.utc insertionEngine _ _ 1%positive MoreSamples.heap
  = Some (2%positive,
          <[2%positive := [MoreSamples.cheese; MoreSamples.honey; MoreSamples.cream]]>
            MoreSamples.heap)
  /\ @expirationTime Sample.utc _ _ MoreSamples.cheese = Some 1704412800000
  /\ @expirationTime Sample.utc _ _ MoreSamples.honey = None
  /\ @expirationTime Sample.utc _ _ MoreSamples.cream = Some 1704067200000
  /\ 1704067200000 < 1704412800000
  /\ ~ Sorted (@notLater Sample.utc _ _)
        [MoreSamples.cheese; MoreSamples.honey; MoreSamples.cream]
  /\ (forall sorted : list PantryItem.t,
        Permutation sorted [MoreSamples.cheese; MoreSamples.honey; MoreSamples.cream] ->
        ~ Sorted (@notLater Sample.utc _ _) sorted).
Proof.
  assert (Hhoney : @expirationTime Sample.utc _ _ MoreSamples.honey = None)
    by (vm_compute; reflexivity).
  split; [vm_compute; reflexivity|].
  split; [vm_compute; reflexivity|].
  split; [exact Hhoney|].
  split; [vm_compute; reflexivity|].
  split; [reflexivity|].
  split.
  - intros Hs. apply Sorted_inv in Hs as [_ Hhd]. apply HdRel_inv in Hhd.
    exact Hhd.
  - intros sorted Hperm Hs.
    apply Sorted_notLater_valid in Hs;
      [|rewrite (Permutation_length Hperm); simpl; lia].
    assert (Hin : In MoreSamples.honey sorted).
    { apply (Permutation_in _ (Permutation_sym Hperm)). right. left. reflexivity. }
    destruct (proj1 (List.Forall_forall _ _) Hs _ Hin) as [t Ht].
    cbv beta in Ht. rewrite Hhoney in Ht. discriminate.
Qed.

(** C6 at work: renaming the rice, and an update that finds no item. *)
Lemma updateItem_spec_witness :
  let data := PartialFormData.mk (Some "Brown rice"%string) None None None None in
  (exists item',
      items (@updateItem Sample.utc Sample.noon "1705000000002-z5c4v3n" data Sample.store)
        !! 2%nat = Some item'
      /\ PantryItem.name item' = "Brown rice"%string
      /\ PantryItem.quantity item' = 3%float
      /\ PantryItem.updatedAt item' = Some "2024-01-15T17:00:00.000Z"%string)
  /\ @updateItem Sample.utc Sample.noon "no-such-id" data Sample.store = Sample.store.
Proof.
  intros data.
  destruct (@updateItem_spec Sample.utc Sample.noon "1705000000002-z5c4v3n" data
              Sample.store) as (_ & _ & _ & Hat & _).
  destruct (@updateItem_spec Sample.utc Sample.noon "no-such-id" data Sample.store)
    as (_ & _ & _ & _ & Hnone).
  split.
  - destruct (Hat 2%nat Sample.rice eq_refl) as (item' & Hlook & _ & Hsame).
    destruct (Hsame eq_refl) as (_ & _ & Hupd & Hname & _ & Hq & _).
    exists item'. repeat split; assumption.
  - apply Hnone. repeat (constructor; [discriminate|]). constructor.
Defined.

(** C7 at work. *)
Lemma unknown_id_is_noop_witness :
  removeItem "nonexistent-id" Sample.store = Sample.store
  /\ removeShoppingItem "nonexistent-id" Sample.store = Sample.store
  /\ toggleShoppingItem "nonexistent-id" Sample.store = Sample.store.
Proof.
  destruct (unknown_id_is_noop "nonexistent-id" Sample.store) as (Hp & Hs).
  split.
  - apply Hp. repeat (constructor; [discriminate|]). constructor.
  - apply Hs. repeat (constructor; [discriminate|]). constructor.
Defined.

(** C8 at work: the milk entry is checked off and cleared; eggs and salt
    stay, in that order. *)
Lemma clearCheckedItems_spec_witness :
  shoppingList
    (clearCheckedItems
       (fold_left (fun s id => toggleShoppingItem id s)
          ["1705100000001-e4f5g6h"%string] Sample.store))
  = [Sample.eggsEntry; Sample.saltEntry]
  /\ [Sample.eggsEntry; Sample.saltEntry]
     `sublist_of` shoppingList (clearCheckedItems Sample.store).
Proof.
  destruct (clearCheckedItems_spec Sample.store) as (_ & _ & _ & Hmax & Htoggle).
  split.
  - rewrite Htoggle.
    + vm_compute. reflexivity.
    + apply NoDup_singleton.
    + repeat constructor.
  - apply Hmax.
    + apply sublist_cons_r. right. eexists. split; [reflexivity|].
      apply sublist_cons, sublist_cons_r. right. eexists. split; [reflexivity|].
      constructor.
    + repeat constructor.
Defined.

(** * Further properties of the code *)

(** ** Looking items up after a change *)

Lemma find_filter_implied {A} (p q : A -> bool) (l : list A) :
  (forall x, p x = true -> q x = true) ->
  List.find p (List.filter q l) = List.find p l.
Proof.
  intros Himp. induction l as [|a l IH]; [reflexivity|]. simpl.
  destruct (q a) eqn:Hq; simpl.
  - now rewrite IH.
  - destruct (p a) eqn:Hp; [|exact IH]. rewrite (Himp a Hp) in Hq. discriminate.
Qed.

Lemma find_filter_excluded {A} (p q : A -> bool) (l : list A) :
  (forall x, p x = true -> q x = false) ->
  List.find p (List.filter q l) = None.
Proof.
  intros Hex. apply find_no_match, Forall_forall. intros x Hx.
  apply list_elem_of_In, filter_In in Hx as [_ Hq].
  destruct (p x) eqn:Hp; [|reflexivity]. rewrite (Hex x Hp) in Hq. discriminate.
Qed.

Lemma find_map_same_test {A} (p : A -> bool) (f : A -> A) (l : list A) :
  (forall x, p (f x) = p x) ->
  List.find p (map f l) = option_map f (List.find p l).
Proof.
  intros Hp. induction l as [|a l IH]; [reflexivity|]. simpl.
  rewrite Hp. destruct (p a); [reflexivity|exact IH].
Qed.

Lemma find_app {A} (p : A -> bool) (l l' : list A) :
  List.find p (l ++ l')
  = match List.find p l with Some x => Some x | None => List.find p l' end.
Proof.
  induction l as [|a l IH]; [reflexivity|]. simpl. now destruct (p a).
Qed.

Lemma flipChecked_involutive (item : ShoppingItem.t) :
  flipChecked (flipChecked item) = item.
Proof. destruct item. unfold flipChecked. cbn. now rewrite negb_involutive. Qed.

(** X1.  Toggling the same id twice gives back the state: every entry that
    the first call checks or unchecks is put back by the second. *)
Theorem toggleShoppingItem_twice (id : string) (s : Store) :
  toggleShoppingItem id (toggleShoppingItem id s) = s.
Proof.
  unfold toggleShoppingItem. cbn [items shoppingList randomDraws].
  rewrite map_map. rewrite <- (Store_eta s) at 4. f_equal.
  rewrite <- (map_id (shoppingList s)) at 2. apply map_ext. intros item.
  destruct (String.eqb (ShoppingItem.id item) id) eqn:Hid.
  - change (ShoppingItem.id (flipChecked item)) with (ShoppingItem.id item).
    rewrite Hid. apply flipChecked_involutive.
  - now rewrite Hid.
Qed.

(** X2.  After [removeItem(id)] no item is found under [id], every other
    id is looked up as before, and removing once more changes nothing. *)
Theorem removeItem_getItemById (id : string) (s : Store) :
  getItemById id (removeItem id s) = None
  /\ (forall id', id' <> id ->
        getItemById id' (removeItem id s) = getItemById id' s)
  /\ removeItem id (removeItem id s) = removeItem id s.
Proof.
  split; [|split].
  - apply find_filter_excluded. intros x ->. reflexivity.
  - intros id' Hne. apply find_filter_implied. intros x Hx.
    apply String.eqb_eq in Hx. apply negb_true_iff, String.eqb_neq. congruence.
  - unfold removeItem. cbn [items shoppingList randomDraws]. f_equal.
    apply filter_all_match, Forall_forall. intros x Hx.
    now apply list_elem_of_In, filter_In in Hx as [_ Hq].
Qed.

(** X3.  [addItem] never disturbs the items that are there: whatever is
    found under an id before is found under it after.  When the generated
    id is not yet in the pantry, looking it up gives the new item, which
    carries the form data and the current timestamp as both [createdAt]
    and [updatedAt]. *)
Theorem addItem_getItemById `{Host} (now : Z) (data : PantryItemFormData.t)
    (s : Store) :
  (forall id item,
      getItemById id s = Some item -> getItemById id (addItem now data s) = Some item)
  /\ (Forall (fun item => PantryItem.id item <> generateId now (randomDraws s))
             (items s) ->
      getItemById (generateId now (randomDraws s)) (addItem now data s)
      = Some {| PantryItem.id := generateId now (randomDraws s);
                PantryItem.name := PantryItemFormData.name data;
                PantryItem.category := PantryItemFormData.category data;
                PantryItem.quantity := PantryItemFormData.quantity data;
                PantryItem.unit := PantryItemFormData.unit data;
                PantryItem.expirationDate := PantryItemFormData.expirationDate data;
                PantryItem.createdAt := toISOString now;
                PantryItem.updatedAt := Some (toISOString now) |}).
Proof.
  unfold getItemById, addItem. cbn [items]. split.
  - intros id item Hfind. now rewrite find_app, Hfind.
  - intros Hnew. rewrite find_app, find_no_match.
    + cbn. now rewrite String.eqb_refl.
    + eapply Forall_impl; [exact Hnew|]. intros x Hx. now apply String.eqb_neq.
Qed.

(** X4.  Looking an item up after [updateItem(id, data)]: under [id] one
    finds the item that was found before, with the supplied fields
    replaced and [updatedAt] set; under any other id one finds what one
    found before. *)
Theorem updateItem_getItemById `{Host} (now : Z) (id : string)
    (data : PartialFormData.t) (s : Store) :
  getItemById id (updateItem now id data s)
  = option_map (fun item => mergeFormData item data (toISOString now))
               (getItemById id s)
  /\ (forall id', id' <> id ->
        getItemById id' (updateItem now id data s) = getItemById id' s).
Proof.
  unfold getItemById, updateItem. cbn [items]. split.
  - rewrite find_map_same_test.
    + destruct (List.find _ (items s)) as [item|] eqn:Hfind; [|reflexivity].
      apply find_some in Hfind as [_ Hid]. cbn. now rewrite Hid.
    + intros x. destruct (String.eqb (PantryItem.id x) id) eqn:E; [|exact E].
      exact E.
  - intros id' Hne. rewrite find_map_same_test.
    + destruct (List.find _ (items s)) as [item|] eqn:Hfind; [|reflexivity].
      apply find_some in Hfind as [_ Hid]. apply String.eqb_eq in Hid. cbn.
      rewrite (proj2 (String.eqb_neq (PantryItem.id item) id)) by congruence.
      reflexivity.
    + intros x. now destruct (String.eqb (PantryItem.id x) id).
Qed.

(** ** Invariants of the two collections *)

Lemma NoDup_map_filter {A B} (f : A -> B) (p : A -> bool) (l : list A) :
  NoDup (map f l) -> NoDup (map f (List.filter p l)).
Proof.
  induction l as [|a l IH]; intros Hnd; [exact Hnd|].
  cbn in Hnd. apply NoDup_cons in Hnd as [Hnotin Hnd]. simpl.
  destruct (p a); [|now apply IH]. cbn. apply NoDup_cons. split; [|now apply IH].
  intros Hin. apply Hnotin.
  apply list_elem_of_In, in_map_iff in Hin as (x & Hx & Hxin).
  apply filter_In in Hxin as [Hxin _].
  apply list_elem_of_In, in_map_iff. now exists x.
Qed.

Lemma NoDup_map_snoc {A B} (f : A -> B) (l : list A) (x : A) :
  NoDup (map f l) -> f x ∉ map f l -> NoDup (map f (l ++ [x])).
Proof.
  intros Hnd Hnew. rewrite map_app. apply NoDup_app. repeat split.
  - exact Hnd.
  - intros y Hy Hy'. apply list_elem_of_In in Hy'. cbn in Hy'.
    destruct Hy' as [<-|[]]. contradiction.
  - apply NoDup_singleton.
Qed.

Lemma map_key_kept {A B} (key : A -> B) (g : A -> A) (l : list A) :
  (forall x, key (g x) = key x) -> map key (map g l) = map key l.
Proof. intros Hk. rewrite map_map. now apply map_ext. Qed.

(** X5.  Ids stay pairwise distinct.  [updateItem] keeps the list of ids of
    the pantry as it is, and [toggleShoppingItem] that of the shopping
    list; the removals and [clearCheckedItems] keep distinct ids distinct;
    [addItem] and [addToShoppingList] do so whenever the id they generate
    is not in the collection already. *)
Theorem ids_stay_distinct `{Host} (now : Z) (s : Store) :
  (forall id data,
      map PantryItem.id (items (updateItem now id data s))
      = map PantryItem.id (items s))
  /\ (forall id,
        map ShoppingItem.id (shoppingList (toggleShoppingItem id s))
        = map ShoppingItem.id (shoppingList s))
  /\ (NoDup (map PantryItem.id (items s)) ->
      (forall id, NoDup (map PantryItem.id (items (removeItem id s))))
      /\ (forall data,
            generateId now (randomDraws s) ∉ map PantryItem.id (items s) ->
            NoDup (map PantryItem.id (items (addItem now data s)))))
  /\ (NoDup (map ShoppingItem.id (shoppingList s)) ->
      (forall id,
          NoDup (map ShoppingItem.id (shoppingList (removeShoppingItem id s))))
      /\ NoDup (map ShoppingItem.id (shoppingList (clearCheckedItems s)))
      /\ (forall name category quantity unit source,
            generateId now (randomDraws s)
            ∉ map ShoppingItem.id (shoppingList s) ->
            NoDup (map ShoppingItem.id
                     (shoppingList
                        (addToShoppingList now name category quantity unit
                           source s))))).
Proof.
  split; [|split; [|split]].
  - intros id data. apply map_key_kept. intros x.
    now destruct (String.eqb (PantryItem.id x) id).
  - intros id. apply map_key_kept. intros x.
    now destruct (String.eqb (ShoppingItem.id x) id).
  - intros Hnd. split.
    + intros id. now apply NoDup_map_filter.
    + intros data Hnew. now apply NoDup_map_snoc.
  - intros Hnd. split; [|split].
    + intros id. now apply NoDup_map_filter.
    + now apply NoDup_map_filter.
    + intros. now apply addToShoppingList_ids_distinct.
Qed.

Section ShoppingNames.
Context `{Host}.

Lemma sameName_lowerName (name : string) (item : ShoppingItem.t) :
  sameName name item = true <-> lowerName item = toLowerCase name.
Proof. apply String.eqb_eq. Qed.

Lemma find_sameName_None (name : string) (s : Store) :
  List.find (sameName name) (shoppingList s) = None <->
  toLowerCase name ∉ lowerNames s.
Proof.
  split.
  - intros Hnone Hin.
    apply list_elem_of_In, in_map_iff in Hin as (e & He & Hin).
    apply (find_none _ _ Hnone) in Hin.
    apply sameName_lowerName in He. congruence.
  - intros Hout. apply find_no_match, Forall_forall. intros e He.
    destruct (sameName name e) eqn:Hs; [|reflexivity].
    exfalso. apply Hout. apply sameName_lowerName in Hs. rewrite <- Hs.
    apply list_elem_of_In, in_map, list_elem_of_In, He.
Qed.

(** What [addToShoppingList] does to the names: nothing when the name is
    there, one more name at the end when it is not. *)
Lemma lowerNames_addToShoppingList now name category quantity unit source s :
  lowerNames (addToShoppingList now name category quantity unit source s)
  = if bool_decide (toLowerCase name ∈ lowerNames s) then lowerNames s
    else lowerNames s ++ [toLowerCase name].
Proof.
  unfold addToShoppingList.
  destruct (List.find _ _) as [existing|] eqn:Hfind.
  - rewrite bool_decide_eq_true_2.
    + unfold lowerNames. cbn [shoppingList]. apply map_key_kept. intros x.
      now destruct (String.eqb _ _).
    + destruct (decide (toLowerCase name ∈ lowerNames s)) as [Hin|Hout];
        [exact Hin|]. apply find_sameName_None in Hout. congruence.
  - rewrite bool_decide_eq_false_2 by now apply find_sameName_None.
    unfold lowerNames. cbn [shoppingList]. now rewrite map_app.
Qed.

Lemma NoDup_lowerNames_addToShoppingList now name category quantity unit source s :
  NoDup (lowerNames s) ->
  NoDup (lowerNames (addToShoppingList now name category quantity unit source s)).
Proof.
  intros Hnd. rewrite lowerNames_addToShoppingList.
  destruct (bool_decide_reflect (toLowerCase name ∈ lowerNames s)) as [Hin|Hout];
    [exact Hnd|].
  apply NoDup_app. repeat split; [exact Hnd| |apply NoDup_singleton].
  intros y Hy Hy'. apply list_elem_of_In in Hy'. cbn in Hy'.
  destruct Hy' as [<-|[]]. contradiction.
Qed.

Lemma NoDup_lowerNames_fold now quantity source (l : list PantryItem.t) s :
  NoDup (lowerNames s) ->
  NoDup (lowerNames
           (fold_left
              (fun s item =>
                 addToShoppingList now (PantryItem.name item)
                   (PantryItem.category item) quantity (PantryItem.unit item)
                   source s)
              l s)).
Proof.
  revert s. induction l as [|a l IH]; intros s Hnd; [exact Hnd|].
  cbn [fold_left]. apply IH. now apply NoDup_lowerNames_addToShoppingList.
Qed.

Lemma NoDup_lowerNames_perform (a : Action) (s : Store) :
  NoDup (lowerNames s) -> NoDup (lowerNames (perform a s)).
Proof.
  intros Hnd. destruct a; cbn [perform]; try exact Hnd.
  - now apply NoDup_lowerNames_addToShoppingList.
  - unfold lowerNames. cbn [toggleShoppingItem shoppingList].
    rewrite (map_key_kept lowerName); [exact Hnd|]. intros x.
    now destruct (String.eqb _ _).
  - now apply NoDup_map_filter.
  - now apply NoDup_map_filter.
  - constructor.
  - now apply NoDup_lowerNames_fold.
  - now apply NoDup_lowerNames_fold.
Qed.

(** X6.  No two entries of the shopping list have the same name up to
    letter case: every action keeps it so, and therefore it holds in every
    state that a run of actions reaches from the initial, empty store. *)
Theorem names_stay_distinct (actions : list Action) :
  (forall s, NoDup (lowerNames s) -> NoDup (lowerNames (run actions s)))
  /\ NoDup (lowerNames (run actions initialStore)).
Proof.
  assert (Hrun : forall s, NoDup (lowerNames s) -> NoDup (lowerNames (run actions s))).
  { unfold run. induction actions as [|a actions IH]; intros s Hnd; [exact Hnd|].
    cbn [fold_left]. apply IH. now apply NoDup_lowerNames_perform. }
  split; [exact Hrun|]. apply Hrun. constructor.
Qed.

End ShoppingNames.

(** ** What auto-populating does to the shopping list *)

Section AutoPopulateList.
Context `{Host}.

(** The calls [autoAddLowStockToShoppingList] and
    [autoAddExpiredToShoppingList] make, for the items of [l] in turn. *)
Abbreviation addAll now quantity source l s :=
  (fold_left
     (fun s item =>
        addToShoppingList now (PantryItem.name item) (PantryItem.category item)
          quantity (PantryItem.unit item) source s)
     l s).

Lemma entryFrames_addToShoppingList now name category quantity unit source s :
  map entryFrame (shoppingList s)
  `prefix_of` map entryFrame
                (shoppingList
                   (addToShoppingList now name category quantity unit source s)).
Proof.
  unfold addToShoppingList. destruct (List.find _ _) as [existing|];
    cbn [shoppingList].
  - rewrite (map_key_kept entryFrame); [reflexivity|].
    intros x. now destruct (String.eqb _ _).
  - rewrite map_app. now apply prefix_app_r.
Qed.

Lemma length_addToShoppingList now name category quantity unit source s :
  (length (shoppingList s)
   <= length (shoppingList
                (addToShoppingList now name category quantity unit source s))
   <= S (length (shoppingList s)))%nat.
Proof.
  unfold addToShoppingList. destruct (List.find _ _) as [existing|];
    cbn [shoppingList].
  - rewrite length_map. lia.
  - rewrite length_app. cbn. lia.
Qed.

(** When the name is on the list, the call changes quantities only: no
    entry is added and no id is generated. *)
Lemma addToShoppingList_present now name category quantity unit source s :
  toLowerCase name ∈ lowerNames s ->
  map entryFrame
    (shoppingList (addToShoppingList now name category quantity unit source s))
  = map entryFrame (shoppingList s)
  /\ randomDraws (addToShoppingList now name category quantity unit source s)
     = randomDraws s.
Proof.
  intros Hin. unfold addToShoppingList.
  destruct (List.find _ _) as [existing|] eqn:Hfind.
  - cbn [shoppingList randomDraws]. split; [|reflexivity].
    apply map_key_kept. intros x. now destruct (String.eqb _ _).
  - apply find_sameName_None in Hfind. contradiction.
Qed.

Lemma lowerNames_grow now name category quantity unit source s (n : string) :
  n ∈ lowerNames s ->
  n ∈ lowerNames (addToShoppingList now name category quantity unit source s).
Proof.
  intros Hn. rewrite lowerNames_addToShoppingList.
  destruct (bool_decide _); [exact Hn|]. apply elem_of_app. now left.
Qed.

Lemma lowerNames_has_added now name category quantity unit source s :
  toLowerCase name
  ∈ lowerNames (addToShoppingList now name category quantity unit source s).
Proof.
  rewrite lowerNames_addToShoppingList.
  destruct (bool_decide_reflect (toLowerCase name ∈ lowerNames s)) as [Hin|_];
    [exact Hin|]. apply elem_of_app. right. left.
Qed.

Lemma addAll_grow now quantity source l s (n : string) :
  n ∈ lowerNames s -> n ∈ lowerNames (addAll now quantity source l s).
Proof.
  revert s. induction l as [|a l IH]; intros s Hn; [exact Hn|].
  cbn [fold_left]. now apply IH, lowerNames_grow.
Qed.

Lemma addAll_covers now quantity source l s (item : PantryItem.t) :
  item ∈ l ->
  toLowerCase (PantryItem.name item) ∈ lowerNames (addAll now quantity source l s).
Proof.
  revert s. induction l as [|a l IH]; intros s Hin; [now apply elem_of_nil in Hin|].
  cbn [fold_left]. apply elem_of_cons in Hin as [->|Hin].
  - apply addAll_grow, lowerNames_has_added.
  - now apply IH.
Qed.

Lemma addAll_frames now quantity source l s :
  map entryFrame (shoppingList s)
  `prefix_of` map entryFrame (shoppingList (addAll now quantity source l s))
  /\ (length (shoppingList s)
      <= length (shoppingList (addAll now quantity source l s))
      <= length (shoppingList s) + length l)%nat.
Proof.
  revert s. induction l as [|a l IH]; intros s; cbn [fold_left].
  - split; [reflexivity|cbn; lia].
  - destruct (IH (addToShoppingList now (PantryItem.name a) (PantryItem.category a)
                    quantity (PantryItem.unit a) source s)) as [Hpre Hlen].
    pose proof (entryFrames_addToShoppingList now (PantryItem.name a)
                  (PantryItem.category a) quantity (PantryItem.unit a) source s).
    pose proof (length_addToShoppingList now (PantryItem.name a)
                  (PantryItem.category a) quantity (PantryItem.unit a) source s).
    split; [etransitivity; eassumption|cbn [length]; lia].
Qed.

Lemma addAll_present now quantity source l s :
  Forall (fun item => toLowerCase (PantryItem.name item) ∈ lowerNames s) l ->
  map entryFrame (shoppingList (addAll now quantity source l s))
  = map entryFrame (shoppingList s)
  /\ randomDraws (addAll now quantity source l s) = randomDraws s.
Proof.
  revert s. induction l as [|a l IH]; intros s Hall; [now split|].
  apply Forall_cons in Hall as [Ha Hall]. cbn [fold_left].
  destruct (addToShoppingList_present now (PantryItem.name a)
              (PantryItem.category a) quantity (PantryItem.unit a) source s Ha)
    as [Hframes Hdraws].
  destruct (IH (addToShoppingList now (PantryItem.name a) (PantryItem.category a)
                  quantity (PantryItem.unit a) source s)) as [IH1 IH2].
  - eapply Forall_impl; [exact Hall|]. intros x Hx. now apply lowerNames_grow.
  - split; congruence.
Qed.

(** X7.  Auto-populating covers what it selects: after
    [autoAddExpiredToShoppingList] every expired pantry item has an entry
    of its name (up to letter case) on the shopping list, and after
    [autoAddLowStockToShoppingList] so has every pantry item with
    [quantity < 2] that is not expired. *)
Theorem autoAdd_covers_selection (now : Z) (s : Store) (item : PantryItem.t) :
  item ∈ items s ->
  (getExpirationStatus now (PantryItem.expirationDate item)
   = ExpirationStatus.expired ->
   toLowerCase (PantryItem.name item)
   ∈ lowerNames (snd (autoAddExpiredToShoppingList now s)))
  /\ (PrimFloat.ltb (PantryItem.quantity item) 2%float = true ->
      getExpirationStatus now (PantryItem.expirationDate item)
      <> ExpirationStatus.expired ->
      toLowerCase (PantryItem.name item)
      ∈ lowerNames (snd (autoAddLowStockToShoppingList now s))).
Proof.
  intros Hin. split.
  - intros Hexp. apply addAll_covers. rewrite expiredItems_filter.
    apply list_elem_of_filter. now split.
  - intros Hlow Hne. apply addAll_covers. rewrite lowStockItems_filter.
    apply list_elem_of_filter. now split.
Qed.

(** X8.  Auto-populating a second time, at the same moment, returns the
    same count and adds no entry: the list keeps its length and its
    entries keep everything but their quantity, and no id is generated. *)
Theorem autoAdd_again_adds_no_entry (now : Z) (s : Store) :
  (let r1 := autoAddExpiredToShoppingList now s in
   let r2 := autoAddExpiredToShoppingList now (snd r1) in
   fst r2 = fst r1
   /\ map entryFrame (shoppingList (snd r2)) = map entryFrame (shoppingList (snd r1))
   /\ randomDraws (snd r2) = randomDraws (snd r1))
  /\ (let r1 := autoAddLowStockToShoppingList now s in
      let r2 := autoAddLowStockToShoppingList now (snd r1) in
      fst r2 = fst r1
      /\ map entryFrame (shoppingList (snd r2))
         = map entryFrame (shoppingList (snd r1))
      /\ randomDraws (snd r2) = randomDraws (snd r1)).
Proof.
  split; cbn zeta.
  - set (l := expiredItems now s).
    set (s1 := addAll now 1%float Source.expired l s).
    change (autoAddExpiredToShoppingList now s) with (length l, s1).
    cbn [fst snd].
    assert (Hsel : expiredItems now s1 = l).
    { unfold expiredItems, s1. now rewrite items_fold_addToShoppingList. }
    change (autoAddExpiredToShoppingList now s1)
      with (length (expiredItems now s1),
            addAll now 1%float Source.expired (expiredItems now s1) s1).
    rewrite Hsel. cbn [fst snd]. split; [reflexivity|].
    apply addAll_present, Forall_forall. intros x Hx. now apply addAll_covers.
  - set (l := lowStockItems now s).
    set (s1 := addAll now 2%float Source.low_stock l s).
    change (autoAddLowStockToShoppingList now s) with (length l, s1).
    cbn [fst snd].
    assert (Hsel : lowStockItems now s1 = l).
    { unfold lowStockItems, s1. now rewrite items_fold_addToShoppingList. }
    change (autoAddLowStockToShoppingList now s1)
      with (length (lowStockItems now s1),
            addAll now 2%float Source.low_stock (lowStockItems now s1) s1).
    rewrite Hsel. cbn [fst snd]. split; [reflexivity|].
    apply addAll_present, Forall_forall. intros x Hx. now apply addAll_covers.
Qed.

(** X9.  Auto-populating only appends and merges: the entries that were
    on the list stay where they are, unchanged but for their quantity, and
    the list grows by at most the count returned. *)
Theorem autoAdd_appends_or_merges (now : Z) (s : Store) :
  (let r := autoAddExpiredToShoppingList now s in
   map entryFrame (shoppingList s) `prefix_of` map entryFrame (shoppingList (snd r))
   /\ (length (shoppingList s) <= length (shoppingList (snd r))
       <= length (shoppingList s) + fst r)%nat)
  /\ (let r := autoAddLowStockToShoppingList now s in
      map entryFrame (shoppingList s)
      `prefix_of` map entryFrame (shoppingList (snd r))
      /\ (length (shoppingList s) <= length (shoppingList (snd r))
          <= length (shoppingList s) + fst r)%nat).
Proof. split; apply addAll_frames. Qed.

End AutoPopulateList.

(** ** Counts *)

Lemma length_filter_exclusive {A} (p q : A -> bool) (l : list A) :
  (forall x, p x = true -> q x = false) ->
  (length (List.filter p l) + length (List.filter q l) <= length l)%nat.
Proof.
  intros Hex. induction l as [|a l IH]; [cbn; lia|]. simpl.
  destruct (p a) eqn:Hp.
  - rewrite (Hex a Hp). cbn. lia.
  - destruct (q a); cbn; lia.
Qed.

Lemma length_filter_split {A} (p : A -> bool) (l : list A) :
  (length (List.filter p l) + length (List.filter (fun x => negb (p x)) l)
   = length l)%nat.
Proof.
  induction l as [|a l IH]; [reflexivity|]. simpl. destruct (p a); cbn; lia.
Qed.

(** X10.  The two auto-populate actions never select the same pantry item:
    an item selected as low on stock is not selected as expired, and the
    two counts together do not exceed the size of the pantry. *)
Theorem autoAdd_selections_disjoint `{Host} (now : Z) (s : Store) :
  (forall item, item ∈ lowStockItems now s -> item ∉ expiredItems now s)
  /\ (fst (autoAddLowStockToShoppingList now s)
      + fst (autoAddExpiredToShoppingList now s) <= length (items s))%nat.
Proof.
  split.
  - intros item Hlow Hexp.
    rewrite lowStockItems_filter in Hlow. rewrite expiredItems_filter in Hexp.
    apply list_elem_of_filter in Hlow as [[_ Hne] _].
    apply list_elem_of_filter in Hexp as [Heq _]. contradiction.
  - apply length_filter_exclusive. intros x Hx.
    apply andb_true_iff in Hx as [_ Hx]. now apply negb_true_iff in Hx.
Qed.

(** X11.  The shopping screen's count of checked entries is the number of
    entries [clearCheckedItems] removes; after it, and after
    [clearShoppingList], the count is zero; clearing the checked entries
    twice is clearing them once. *)
Theorem checkedCount_clearCheckedItems (s : Store) :
  (length (shoppingList (clearCheckedItems s)) + checkedCount s
   = length (shoppingList s))%nat
  /\ checkedCount (clearCheckedItems s) = 0%nat
  /\ checkedCount (clearShoppingList s) = 0%nat
  /\ clearCheckedItems (clearCheckedItems s) = clearCheckedItems s.
Proof.
  assert (Hnone : Forall (fun x => negb (ShoppingItem.checked x) = true)
                         (shoppingList (clearCheckedItems s))).
  { apply Forall_forall. intros x Hx.
    now apply list_elem_of_In, filter_In in Hx as [_ Hx]. }
  split; [|split; [|split]].
  - unfold checkedCount. cbn [clearCheckedItems shoppingList].
    rewrite Nat.add_comm. apply length_filter_split.
  - unfold checkedCount. rewrite filter_no_match; [reflexivity|].
    eapply Forall_impl; [exact Hnone|]. intros x Hx. now apply negb_true_iff.
  - reflexivity.
  - unfold clearCheckedItems at 1. rewrite filter_all_match by exact Hnone.
    apply Store_eta.
Qed.

(** X12.  The pantry screen's two counts cover different items: together
    they do not exceed the size of the pantry, and an item is counted as
    expiring only if it is not counted as expired.  The test
    [items.length > 0] in the condition for showing the status summary is
    implied by the rest of the condition. *)
Theorem pantry_screen_counts `{Host} (now : Z) (s : Store) :
  (expiredCount now s + expiringCount now s <= length (items s))%nat
  /\ (forall item,
        item ∈ getExpiringItems now (items s) ->
        item ∉ getExpiredItems now (items s))
  /\ showsStatusSummary now s
     = ((0 <? expiredCount now s)%nat || (0 <? expiringCount now s)%nat).
Proof.
  assert (Hsum : (expiredCount now s + expiringCount now s <= length (items s))%nat).
  { apply length_filter_exclusive. intros x Hx.
    apply bool_decide_eq_true in Hx. apply bool_decide_eq_false.
    unfold expirationDateOf, PantryItem_expirationDate in *. congruence. }
  split; [exact Hsum|]. split.
  - intros item Hing Hexp.
    apply list_elem_of_In, filter_In in Hing as [_ Hing].
    apply list_elem_of_In, filter_In in Hexp as [_ Hexp].
    apply bool_decide_eq_true in Hing, Hexp. congruence.
  - unfold showsStatusSummary.
    destruct (Nat.ltb_spec 0 (length (items s))) as [Hpos|Hzero]; [reflexivity|].
    destruct (Nat.ltb_spec 0 (expiredCount now s)); [lia|].
    destruct (Nat.ltb_spec 0 (expiringCount now s)); [lia|]. reflexivity.
Qed.

(** ** The classifier along time, and next to the description *)

Section ClassifierOrder.
Context `{Host}.

Lemma localDay_monotone (t1 t2 : Z) : t1 <= t2 -> localDay t1 <= localDay t2.
Proof. intros Hle. unfold localDay. apply Z.div_le_mono; lia. Qed.

Lemma statusRank_by_days (now : Z) (s : string) (d : Z) :
  daysFromToday now s = Some d ->
  statusRank (getExpirationStatus now s)
  = if d <? 0 then 0 else if d <=? 3 then 1 else 2.
Proof.
  intros Hd. unfold getExpirationStatus. rewrite Hd. cbn [num_ltb num_leb].
  destruct (d <? 0); [reflexivity|]. now destruct (d <=? 3).
Qed.

Lemma statusRank_monotone_days (now1 now2 : Z) (s1 s2 : string) (d1 d2 : Z) :
  daysFromToday now1 s1 = Some d1 ->
  daysFromToday now2 s2 = Some d2 ->
  d1 <= d2 ->
  statusRank (getExpirationStatus now1 s1) <= statusRank (getExpirationStatus now2 s2).
Proof.
  intros H1 H2 Hle.
  rewrite (statusRank_by_days now1 s1 d1 H1), (statusRank_by_days now2 s2 d2 H2).
  destruct (Z.ltb_spec d1 0), (Z.ltb_spec d2 0),
    (Z.leb_spec d1 3), (Z.leb_spec d2 3); lia.
Qed.

Lemma daysFromToday_parsed (now : Z) (s : string) (d : Z) :
  daysFromToday now s = Some d -> exists t, Date_parse s = Some t.
Proof.
  unfold daysFromToday. destruct (Date_parse s) as [t|]; [now exists t|].
  cbn. destruct (TimeClip _); discriminate.
Qed.

Lemma statusRank_monotone_date (now : Z) (s1 s2 : string) (t1 t2 d1 d2 : Z) :
  Date_parse s1 = Some t1 ->
  Date_parse s2 = Some t2 ->
  t1 <= t2 ->
  daysFromToday now s1 = Some d1 ->
  daysFromToday now s2 = Some d2 ->
  statusRank (getExpirationStatus now s1) <= statusRank (getExpirationStatus now s2).
Proof.
  intros Hp1 Hp2 Hle H1 H2.
  apply (statusRank_monotone_days now now s1 s2 d1 d2 H1 H2).
  rewrite (daysFromToday_localDay now s1 t1 d1 Hp1 H1).
  rewrite (daysFromToday_localDay now s2 t2 d2 Hp2 H2).
  pose proof (localDay_monotone t1 t2 Hle). lia.
Qed.

(** X13.  The later the expiration date, the less pressing the status: of
    two dates read on the same day, the later one is never in a worse
    class.  And time only makes things worse: read at a later moment, a
    date is never in a better class than before. *)
Theorem status_monotone (now : Z) (s1 s2 : string) (t1 t2 d1 d2 : Z) :
  Date_parse s1 = Some t1 ->
  Date_parse s2 = Some t2 ->
  t1 <= t2 ->
  daysFromToday now s1 = Some d1 ->
  daysFromToday now s2 = Some d2 ->
  statusRank (getExpirationStatus now s1) <= statusRank (getExpirationStatus now s2)
  /\ (forall later d1',
        now <= later ->
        daysFromToday later s1 = Some d1' ->
        statusRank (getExpirationStatus later s1)
        <= statusRank (getExpirationStatus now s1)).
Proof.
  intros Hp1 Hp2 Hle H1 H2. split.
  - exact (statusRank_monotone_date now s1 s2 t1 t2 d1 d2 Hp1 Hp2 Hle H1 H2).
  - intros later d1' Hlater H1'.
    apply (statusRank_monotone_days later now s1 s1 d1' d1 H1' H1).
    rewrite (daysFromToday_localDay later s1 t1 d1' Hp1 H1').
    rewrite (daysFromToday_localDay now s1 t1 d1 Hp1 H1).
    pose proof (localDay_monotone now later Hlater). lia.
Qed.

(** X14.  The badge and the text of a pantry card agree.  The card shows
    [getExpirationStatus] and [getExpirationDescription] of the same date:
    the status is expired exactly when the text begins with "Expired ";
    when it is expiring the text is one of "Expires today", "Expires
    tomorrow", "Expires in 2 days", "Expires in 3 days"; when it is fresh
    the text is "Expires " followed by the formatted date. *)
Theorem status_and_description_agree (now : Z) (s : string) :
  (getExpirationStatus now s = ExpirationStatus.expired
   <-> exists rest, getExpirationDescription now s = ("Expired " ++ rest)%string)
  /\ (getExpirationStatus now s = ExpirationStatus.expiring ->
      In (getExpirationDescription now s)
         ["Expires today"; "Expires tomorrow"; "Expires in 2 days";
          "Expires in 3 days"]%string)
  /\ (getExpirationStatus now s = ExpirationStatus.fresh ->
      getExpirationDescription now s = ("Expires " ++ formatDate s)%string).
Proof.
  unfold getExpirationStatus, getExpirationDescription.
  destruct (daysFromToday now s) as [d|];
    cbn [num_ltb num_leb num_eqb num_to_string option_map].
  2:{ repeat split; try discriminate. intros [rest Hrest]. discriminate. }
  destruct (Z.ltb_spec d 0) as [Hneg|Hnonneg].
  - repeat split; try discriminate. intros _.
    destruct (Z.abs d =? 1); eexists; reflexivity.
  - destruct (Z.eqb_spec d 0) as [->|H0].
    { repeat split; try discriminate.
      - intros [rest Hrest]. discriminate.
      - intros _. now left. }
    destruct (Z.eqb_spec d 1) as [->|H1].
    { repeat split; try discriminate.
      - intros [rest Hrest]. discriminate.
      - intros _. right. now left. }
    destruct (Z.leb_spec d 3) as [H3|H3].
    + repeat split; try discriminate.
      * intros [rest Hrest]. discriminate.
      * intros _. assert (d = 2 \/ d = 3) as [->| ->] by lia.
        -- right. right. now left.
        -- right. right. right. now left.
    + repeat split; try discriminate. intros [rest Hrest]. discriminate.
Qed.

(** X15.  A date the host cannot parse never counts as expired or
    expiring: the item is classified fresh and described as
    "Expires " followed by the formatting of an Invalid Date, it is not
    counted by the pantry screen, [autoAddExpiredToShoppingList] never
    selects it, and [autoAddLowStockToShoppingList] selects it exactly when
    its quantity is below 2. *)
Theorem unparsable_date_is_fresh (now : Z) (s : Store) (item : PantryItem.t) :
  item ∈ items s ->
  Date_parse (PantryItem.expirationDate item) = None ->
  getExpirationStatus now (PantryItem.expirationDate item) = ExpirationStatus.fresh
  /\ getExpirationDescription now (PantryItem.expirationDate item)
     = ("Expires " ++ toLocaleDateString None)%string
  /\ (item ∉ getExpiredItems now (items s))
  /\ (item ∉ getExpiringItems now (items s))
  /\ (item ∉ expiredItems now s)
  /\ (item ∈ lowStockItems now s
      <-> PrimFloat.ltb (PantryItem.quantity item) 2%float = true).
Proof.
  intros Hin Hnone.
  pose proof (getExpirationStatus_invalid now _ Hnone) as Hfresh.
  split; [exact Hfresh|]. split; [|split; [|split; [|split]]].
  - unfold getExpirationDescription, formatDate, daysFromToday. rewrite Hnone.
    cbn [setHours0]. destruct (TimeClip _); reflexivity.
  - intros Hexp. apply list_elem_of_In, filter_In in Hexp as [_ Hexp].
    apply bool_decide_eq_true in Hexp.
    unfold expirationDateOf, PantryItem_expirationDate in Hexp. congruence.
  - intros Hexp. apply list_elem_of_In, filter_In in Hexp as [_ Hexp].
    apply bool_decide_eq_true in Hexp.
    unfold expirationDateOf, PantryItem_expirationDate in Hexp. congruence.
  - rewrite expiredItems_filter. intros Hexp.
    apply list_elem_of_filter in Hexp as [Hexp _]. congruence.
  - rewrite lowStockItems_filter, list_elem_of_filter. split.
    + now intros [[Hlow _] _].
    + intros Hlow. repeat split; [exact Hlow|congruence|exact Hin].
Qed.

End ClassifierOrder.

(** ** The sorted view of the pantry *)

Lemma Sorted_weaken {A} (R R' : A -> A -> Prop) (P : A -> Prop) (l : list A) :
  (forall a b, P a -> P b -> R a b -> R' a b) ->
  Forall P l -> Sorted R l -> Sorted R' l.
Proof.
  intros Himp. induction 1 as [|x l Hx Hl IH]; intros Hs; [constructor|].
  apply Sorted_inv in Hs as [Hs Hhd]. constructor; [now apply IH|].
  destruct Hhd as [|y l' Hxy]; constructor.
  apply Forall_cons in Hl as [Hy _]. now apply Himp.
Qed.

(** X16.  When every item of the pantry has a defined day difference
    (its date parses), the list the pantry screen shows goes from the most
    pressing items to the least: in the array [getSortedByExpiration]
    returns, a rearrangement of the pantry, no item is followed by an item
    of a more pressing status, so the expired items come first, then the
    expiring ones, then the fresh ones. *)
Theorem sorted_view_by_urgency `{Host} {E : Engine} (now : Z) (s : Store)
    (itemsRef : loc) (h : gmap loc (list PantryItem.t)) :
  conforms E ->
  h !! itemsRef = Some (items s) ->
  Forall (fun item => is_Some (daysFromToday now (PantryItem.expirationDate item)))
         (items s) ->
  exists result sorted,
    getSortedByExpiration itemsRef h = Some (result, <[result := sorted]> h)
    /\ Permutation sorted (items s)
    /\ Sorted
         (fun a b =>
            statusRank (getExpirationStatus now (PantryItem.expirationDate a))
            <= statusRank (getExpirationStatus now (PantryItem.expirationDate b)))
         sorted.
Proof.
  intros Hc Hitems Hdef.
  assert (Hv : Forall (fun x : PantryItem.t => is_Some (expirationTime x)) (items s)).
  { eapply Forall_impl; [exact Hdef|]. intros x [d Hd].
    destruct (daysFromToday_parsed now _ d Hd) as [t Ht]. now exists t. }
  destruct (sortByExpirationDate_heap itemsRef h (items s) Hitems) as (Hrun & _ & _).
  rewrite (engine_sort_valid (items s) Hc Hv) in Hrun.
  destruct (sorted_by_expiration (items s) Hv) as (_ & Hperm & Hsorted & _).
  exists (fresh (dom h)), (stable_sort byExpirationDate (items s)).
  split; [exact Hrun|]. split; [exact Hperm|].
  apply (Sorted_weaken notLater _
           (fun item => is_Some (daysFromToday now (PantryItem.expirationDate item))));
    [| now rewrite Hperm | exact Hsorted].
  intros a b [da Ha] [db Hb] Hab.
  destruct (daysFromToday_parsed now _ da Ha) as [ta Hta].
  destruct (daysFromToday_parsed now _ db Hb) as [tb Htb].
  apply (statusRank_monotone_date now _ _ ta tb da db Hta Htb); [|exact Ha|exact Hb].
  unfold notLater, expirationTime, expirationDateOf, PantryItem_expirationDate in Hab.
  now rewrite Hta, Htb in Hab.
Qed.

(** ** Generated ids *)

(** X17.  Two ids generated at different clock readings (at or after the
    epoch) are different, whatever [Math.random] returns; two ids generated
    at the same reading are equal exactly when the random suffixes are. *)
Theorem generateId_injective `{Host} (now1 now2 : Z) (n1 n2 : nat) :
  0 <= now1 -> 0 <= now2 ->
  (generateId now1 n1 = generateId now2 n2
   <-> now1 = now2 /\ randomSuffix n1 = randomSuffix n2).
Proof.
  intros H1 H2. unfold generateId. split.
  - intros Heq.
    apply dash_splits in Heq as [Hnow Hr]; try now apply pretty_nonneg_no_dash.
    split; [|exact Hr]. now apply (inj pretty).
  - now intros [-> ->].
Qed.

(** ** The order of the actions *)

Lemma List_filter_comm {A} (p q : A -> bool) (l : list A) :
  List.filter p (List.filter q l) = List.filter q (List.filter p l).
Proof.
  induction l as [|a l IH]; [reflexivity|]. simpl.
  destruct (p a) eqn:Hp, (q a) eqn:Hq; simpl; rewrite ?Hp, ?Hq, IH; reflexivity.
Qed.

Lemma List_filter_map_comm {A} (p : A -> bool) (f : A -> A) (l : list A) :
  (forall x, p (f x) = p x) ->
  List.filter p (map f l) = map f (List.filter p l).
Proof.
  intros Hp. induction l as [|a l IH]; [reflexivity|]. simpl.
  rewrite Hp. destruct (p a); simpl; now rewrite IH.
Qed.

(** X18.  Removals, toggles and the clearing of checked entries can be
    done in either order: two removals commute, in the pantry and in the
    shopping list; so do two toggles; and removing an entry commutes with
    toggling another id's entries.  Removing an entry also commutes with
    clearing the checked ones. *)
Theorem actions_commute (a b : string) (s : Store) :
  removeItem a (removeItem b s) = removeItem b (removeItem a s)
  /\ removeShoppingItem a (removeShoppingItem b s)
     = removeShoppingItem b (removeShoppingItem a s)
  /\ toggleShoppingItem a (toggleShoppingItem b s)
     = toggleShoppingItem b (toggleShoppingItem a s)
  /\ removeShoppingItem a (toggleShoppingItem b s)
     = toggleShoppingItem b (removeShoppingItem a s)
  /\ removeShoppingItem a (clearCheckedItems s)
     = clearCheckedItems (removeShoppingItem a s).
Proof.
  repeat split.
  - unfold removeItem. cbn [items shoppingList randomDraws]. f_equal.
    apply List_filter_comm.
  - unfold removeShoppingItem. cbn [items shoppingList randomDraws]. f_equal.
    apply List_filter_comm.
  - unfold toggleShoppingItem. cbn [items shoppingList randomDraws]. f_equal.
    rewrite !map_map. apply map_ext. intros x.
    destruct (String.eqb (ShoppingItem.id x) a) eqn:Ha,
             (String.eqb (ShoppingItem.id x) b) eqn:Hb;
      cbn [flipChecked ShoppingItem.id]; rewrite ?Ha, ?Hb; reflexivity.
  - unfold removeShoppingItem, toggleShoppingItem.
    cbn [items shoppingList randomDraws]. f_equal.
    apply List_filter_map_comm. intros x.
    now destruct (String.eqb (ShoppingItem.id x) b).
  - unfold removeShoppingItem, clearCheckedItems.
    cbn [items shoppingList randomDraws]. f_equal. apply List_filter_comm.
Qed.

(** ** Colours and categories *)

(** X19.  The badge colours tell the statuses apart: two statuses have the
    same text colour, or the same background colour, only if they are the
    same status, and no text colour is a background colour. *)
Theorem status_colours_distinct (a b : ExpirationStatus.t) :
  (getExpirationColor a = getExpirationColor b <-> a = b)
  /\ (getExpirationBackgroundColor a = getExpirationBackgroundColor b <-> a = b)
  /\ getExpirationColor a <> getExpirationBackgroundColor b.
Proof.
  destruct a, b; repeat split; intros; try reflexivity; try discriminate.
Qed.

Lemma partition_by_key {A K} `{EqDecision K} (key : A -> K) (ks : list K)
    (l : list A) :
  NoDup ks ->
  Forall (fun x => key x ∈ ks) l ->
  concat (map (fun k => filter (fun x => key x = k) l) ks) ≡ₚ l.
Proof.
  revert l. induction ks as [|k ks IH]; intros l Hnd Hall.
  - destruct l as [|x l]; [reflexivity|].
    apply Forall_cons in Hall as [Hx _]. now apply elem_of_nil in Hx.
  - apply NoDup_cons in Hnd as [Hk Hnd]. cbn [map concat].
    etransitivity; [|apply (filter_app_complement (fun x => key x = k) l)].
    apply Permutation_app_head.
    assert (Heq : map (fun k' => filter (fun x => key x = k') l) ks
                  = map (fun k' =>
                           filter (fun x => key x = k')
                                  (filter (fun x => key x <> k) l)) ks).
    { apply map_ext_in. intros k' Hk'. apply list_elem_of_In in Hk'.
      symmetry. apply list_filter_filter_l. intros x Hx Hxk. congruence. }
    rewrite Heq. apply IH; [exact Hnd|].
    apply Forall_forall. intros x Hx.
    apply list_elem_of_filter in Hx as [Hne Hx].
    pose proof (proj1 (Forall_forall _ _) Hall x Hx) as Hin.
    apply elem_of_cons in Hin as [Hxk|Hin]; [contradiction|exact Hin].
Qed.

(** X20.  The category views partition the pantry: the results of
    [getItemsByCategory] for the twelve categories, put one after the
    other, are a rearrangement of the pantry; each item is under exactly
    one category, its own. *)
Theorem getItemsByCategory_partition (s : Store) :
  concat (map (fun category => getItemsByCategory category s) CATEGORIES)
  ≡ₚ items s.
Proof.
  assert (Heq : map (fun category => getItemsByCategory category s) CATEGORIES
                = map (fun category =>
                         filter (fun x => PantryItem.category x = category)
                                (items s)) CATEGORIES).
  { apply map_ext. intros c. apply List_filter_Prop.
    intros x. apply bool_decide_eq_true. }
  rewrite Heq. apply (partition_by_key PantryItem.category).
  - apply (bool_decide_unpack _). vm_compute. exact I.
  - apply Forall_forall. intros x _. destruct (PantryItem.category x);
      apply (bool_decide_unpack _); vm_compute; exact I.
Qed.

(** ** The day difference *)

(** X21.  The day difference the classifier works with is the difference
    of two local calendar days, that of the parsed date and that of the
    current moment; so two dates that fall on the same local day are
    classified alike. *)
Theorem daysFromToday_local_days `{Host} (now : Z) (s1 s2 : string)
    (t1 t2 d1 d2 : Z) :
  Date_parse s1 = Some t1 ->
  Date_parse s2 = Some t2 ->
  daysFromToday now s1 = Some d1 ->
  daysFromToday now s2 = Some d2 ->
  d1 = localDay t1 - localDay now
  /\ (localDay t1 = localDay t2 ->
      getExpirationStatus now s1 = getExpirationStatus now s2).
Proof.
  intros Hp1 Hp2 H1 H2.
  pose proof (daysFromToday_localDay now s1 t1 d1 Hp1 H1) as E1.
  pose proof (daysFromToday_localDay now s2 t2 d2 Hp2 H2) as E2.
  split; [exact E1|]. intros Hsame.
  unfold getExpirationStatus. rewrite H1, H2.
  replace d2 with d1 by lia. reflexivity.
Qed.

(** * The further properties at work on the sample data *)

Lemma removeItem_getItemById_witness :
  getItemById (PantryItem.id Sample.milk)
    (removeItem (PantryItem.id Sample.bread) Sample.store)
  = Some Sample.milk.
Proof.
  destruct (removeItem_getItemById (PantryItem.id Sample.bread) Sample.store)
    as (_ & Hother & _).
  rewrite Hother; [reflexivity|discriminate].
Defined.

Lemma addItem_getItemById_witness :
  let data :=
    PantryItemFormData.mk "Butter" Category.Dairy 1%float Unit.packages "2024-02-01" in
  getItemById "1705338000000-0000007"
    (@addItem Sample.utc Sample.noon data Sample.store)
  = Some (PantryItem.mk "1705338000000-0000007" "Butter" Category.Dairy 1%float
            Unit.packages "2024-02-01" "2024-01-15T17:00:00.000Z"
            (Some "2024-01-15T17:00:00.000Z"%string))
  /\ getItemById (PantryItem.id Sample.rice)
       (@addItem Sample.utc Sample.noon data Sample.store)
     = Some Sample.rice.
Proof.
  intros data.
  destruct (@addItem_getItemById Sample.utc Sample.noon data Sample.store)
    as (Hold & Hnew).
  split.
  - apply Hnew. repeat (constructor; [discriminate|]). constructor.
  - apply Hold. reflexivity.
Defined.

Lemma updateItem_getItemById_witness :
  let data := PartialFormData.mk None None (Some 5%float) None None in
  getItemById (PantryItem.id Sample.milk)
    (@updateItem Sample.utc Sample.noon (PantryItem.id Sample.rice) data Sample.store)
  = Some Sample.milk.
Proof.
  intros data.
  destruct (@updateItem_getItemById Sample.utc Sample.noon
              (PantryItem.id Sample.rice) data Sample.store) as (_ & Hother).
  rewrite Hother; [reflexivity|discriminate].
Defined.

Lemma ids_stay_distinct_witness :
  NoDup (map PantryItem.id
           (items (removeItem (PantryItem.id Sample.bread) Sample.store)))
  /\ NoDup (map ShoppingItem.id
              (shoppingList
                 (@addToShoppingList Sample.utc Sample.noon "Butter" Category.Dairy
                    1%float Unit.packages Source.manual Sample.store))).
Proof.
  destruct (@ids_stay_distinct Sample.utc Sample.noon Sample.store)
    as (_ & _ & Hpantry & Hlist).
  split.
  - apply Hpantry. apply (bool_decide_unpack _). vm_compute. exact I.
  - apply Hlist.
    + apply (bool_decide_unpack _). vm_compute. exact I.
    + apply (bool_decide_unpack _). vm_compute. exact I.
Defined.

Lemma names_stay_distinct_witness :
  NoDup (@lowerNames Sample.utc (@run Sample.utc MoreSamples.session Sample.store)).
Proof.
  destruct (@names_stay_distinct Sample.utc MoreSamples.session) as (Hkeep & _).
  apply Hkeep. apply (bool_decide_unpack _). vm_compute. exact I.
Defined.

Lemma autoAdd_covers_selection_witness :
  @toLowerCase Sample.utc "Bread"
  ∈ @lowerNames Sample.utc
      (snd (@autoAddExpiredToShoppingList Sample.utc Sample.noon Sample.store))
  /\ @toLowerCase Sample.utc "Milk"
     ∈ @lowerNames Sample.utc
         (snd (@autoAddLowStockToShoppingList Sample.utc Sample.noon Sample.store)).
Proof.
  split.
  - apply (@autoAdd_covers_selection Sample.utc Sample.noon Sample.store Sample.bread).
    + right. left.
    + vm_compute. reflexivity.
  - apply (@autoAdd_covers_selection Sample.utc Sample.noon Sample.store Sample.milk).
    + left.
    + vm_compute. reflexivity.
    + vm_compute. discriminate.
Defined.

Lemma autoAdd_selections_disjoint_witness :
  Sample.milk ∉ @expiredItems Sample.utc Sample.noon Sample.store.
Proof.
  destruct (@autoAdd_selections_disjoint Sample.utc Sample.noon Sample.store)
    as (Hdisjoint & _).
  apply Hdisjoint. vm_compute. left.
Defined.

Lemma pantry_screen_counts_witness :
  Sample.rice ∉ @getExpiredItems Sample.utc _ _ Sample.noon (items Sample.store).
Proof.
  destruct (@pantry_screen_counts Sample.utc Sample.noon Sample.store)
    as (_ & Hdisjoint & _).
  apply Hdisjoint. vm_compute. right. left.
Defined.

Lemma status_monotone_witness :
  statusRank (@getExpirationStatus Sample.utc Sample.noon "2024-01-14")
  <= statusRank (@getExpirationStatus Sample.utc Sample.noon "2024-01-17").
Proof.
  apply (@status_monotone Sample.utc Sample.noon "2024-01-14" "2024-01-17"
           1705190400000 1705449600000 (-1) 2);
    try (vm_compute; reflexivity).
  vm_compute. discriminate.
Defined.

Lemma status_and_description_agree_witness :
  In (@getExpirationDescription Sample.utc Sample.noon "2024-01-17")
     ["Expires today"; "Expires tomorrow"; "Expires in 2 days";
      "Expires in 3 days"]%string.
Proof.
  destruct (@status_and_description_agree Sample.utc Sample.noon "2024-01-17")
    as (_ & Hexpiring & _).
  apply Hexpiring. vm_compute. reflexivity.
Defined.

Lemma unparsable_date_is_fresh_witness :
  @getExpirationStatus Sample.utc Sample.noon "2024-13-45" = ExpirationStatus.fresh
  /\ MoreSamples.honey ∈ @lowStockItems Sample.utc Sample.noon MoreSamples.store.
Proof.
  destruct (@unparsable_date_is_fresh Sample.utc Sample.noon MoreSamples.store
              MoreSamples.honey) as (Hfresh & _ & _ & _ & _ & Hlow).
  - right. left.
  - vm_compute. reflexivity.
  - split; [exact Hfresh|]. apply Hlow. vm_compute. reflexivity.
Defined.

Lemma sorted_view_by_urgency_witness :
  exists result sorted,
    @getSortedByExpiration Sample.utc insertionEngine 1%positive Sample.heap
    = Some (result, <[result := sorted]> Sample.heap)
    /\ Permutation sorted (items Sample.store)
    /\ Sorted
         (fun a b =>
            statusRank
              (@getExpirationStatus Sample.utc Sample.noon (PantryItem.expirationDate a))
            <= statusRank
                 (@getExpirationStatus Sample.utc Sample.noon
                    (PantryItem.expirationDate b)))
         sorted.
Proof.
  apply (@sorted_view_by_urgency Sample.utc insertionEngine Sample.noon Sample.store
           1%positive Sample.heap).
  - exact insertionEngine_conforms.
  - reflexivity.
  - repeat (constructor; [eexists; reflexivity|]). constructor.
Defined.

Lemma generateId_injective_witness :
  @generateId Sample.utc Sample.noon 3 <> @generateId Sample.utc (Sample.noon + 1) 3.
Proof.
  intros Heq.
  apply (@generateId_injective Sample.utc Sample.noon (Sample.noon + 1) 3 3) in Heq
    as [Hnow _]; [discriminate| |]; vm_compute; discriminate.
Defined.

Lemma daysFromToday_local_days_witness :
  2 = @localDay Sample.utc 1705449600000 - @localDay Sample.utc Sample.noon.
Proof.
  apply (@daysFromToday_local_days Sample.utc Sample.noon "2024-01-17" "2024-01-17"
           1705449600000 1705449600000 2 2);
    vm_compute; reflexivity.
Defined.
